(** * The Swarm Gemini adapter and its weather example agent

    A shallow embedding of [swarm/clients/gemini_client.py] and of
    [examples/weather_agent_gemini/agents.py].

    Python values are an inductive type [pyval]; a [dict] is an association
    list in insertion order; a raised exception is the [Raise] case of
    [result].  The effects of the two programs (printing, drawing a UUID,
    the call to the generative model, the environment and the HTTP request)
    are explicit: a [world] is threaded through the effectful functions and
    the external services are oracles given as arguments.

    Numbers are integers: Python floats are outside the model.  A character
    of a string is a code point below 256. *)

From Stdlib Require Import String Ascii List ZArith Bool Lia.
From Stdlib Require Import Decimal DecimalString DecimalZ DecimalPos DecimalFacts.
Import ListNotations.
Local Open Scope list_scope.
Local Open Scope string_scope.

(** ** Python values, exceptions, dictionaries *)

Module Py.

(** The exceptions the two programs can meet; all are subclasses of
    Python's [Exception]. *)
Inductive exn : Type :=
| KeyError (key : string)
| TypeError (msg : string)
| AttributeError (msg : string)
| JSONDecodeError (msg : string)
| RequestException (msg : string)
| BackendError (msg : string).

Inductive result (A : Type) : Type :=
| Ok (a : A)
| Raise (e : exn).
Arguments Ok {A} a.
Arguments Raise {A} e.

Definition bind {A B : Type} (r : result A) (k : A -> result B) : result B :=
  match r with
  | Ok a => k a
  | Raise e => Raise e
  end.

Definition returned {A : Type} (r : result A) : bool :=
  match r with Ok _ => true | Raise _ => false end.

Section Comprehensions.
Context {A B : Type}.

(** [[f(x) for x in l]], where [f] may raise. *)
Fixpoint mapM (f : A -> result B) (l : list A) : result (list B) :=
  match l with
  | [] => Ok []
  | x :: r =>
      match f x with
      | Ok y => match mapM f r with
                | Ok ys => Ok (y :: ys)
                | Raise e => Raise e
                end
      | Raise e => Raise e
      end
  end.

(** [[x for x in l if p(x)]], where [p] may raise. *)
Fixpoint filterM (p : A -> result bool) (l : list A) : result (list A) :=
  match l with
  | [] => Ok []
  | x :: r =>
      match p x with
      | Ok b => match filterM p r with
                | Ok xs => Ok (if b then x :: xs else xs)
                | Raise e => Raise e
                end
      | Raise e => Raise e
      end
  end.
End Comprehensions.

(** Effectful code: a world is threaded through, and an exception leaves
    the world as it was when it was raised. *)
Definition M (W A : Type) : Type := W -> result A * W.

Definition ret {W A : Type} (a : A) : M W A := fun w => (Ok a, w).

Definition mbind {W A B : Type} (c : M W A) (k : A -> M W B) : M W B :=
  fun w =>
    match c w with
    | (Ok a, w') => k a w'
    | (Raise e, w') => (Raise e, w')
    end.

Definition lift {W A : Type} (r : result A) : M W A := fun w => (r, w).

(** [try: body / except Exception as e: handler(e)]. *)
Definition try_except {W A : Type} (body : M W A) (handler : exn -> M W A)
  : M W A :=
  fun w =>
    match body w with
    | (Ok a, w') => (Ok a, w')
    | (Raise e, w') => handler e w'
    end.

(** [PMapping] is an object that is not a [dict] but has [items()], [get]
    and subscripting (the SDK's map container); [PObject] is any other
    object, with its class name and attributes. *)
#[local] Unset Elimination Schemes.
Inductive pyval : Type :=
| PNone
| PBool (b : bool)
| PInt (z : Z)
| PStr (s : string)
| PList (l : list pyval)
| PDict (d : list (string * pyval))
| PMapping (cls : string) (items : list (string * pyval))
| PObject (cls : string) (attrs : list (string * pyval)).
#[local] Set Elimination Schemes.

Definition pydict : Type := list (string * pyval).

Section Dict.
Context {V : Type}.

(** [d.get(k)], as an option. *)
Fixpoint dict_get (d : list (string * V)) (k : string) : option V :=
  match d with
  | [] => None
  | (k', v) :: d' => if String.eqb k' k then Some v else dict_get d' k
  end.

(** [k in d]. *)
Definition dict_mem (d : list (string * V)) (k : string) : bool :=
  match dict_get d k with Some _ => true | None => false end.

(** [d[k] = v]: an existing key keeps its place, a new one goes last. *)
Fixpoint dict_set (d : list (string * V)) (k : string) (v : V)
  : list (string * V) :=
  match d with
  | [] => [(k, v)]
  | (k', v') :: d' =>
      if String.eqb k' k then (k', v) :: d' else (k', v') :: dict_set d' k v
  end.

(** [dict(pairs)], also what a dict comprehension builds. *)
Definition dict_of_pairs (ps : list (string * V)) : list (string * V) :=
  fold_left (fun d kv => dict_set d (fst kv) (snd kv)) ps [].

Fixpoint keys_unique (d : list (string * V)) : bool :=
  match d with
  | [] => true
  | (k, _) :: d' => negb (dict_mem d' k) && keys_unique d'
  end.
End Dict.

(** The name Python prints for the type of a value. *)
Definition type_name (v : pyval) : string :=
  match v with
  | PNone => "NoneType"
  | PBool _ => "bool"
  | PInt _ => "int"
  | PStr _ => "str"
  | PList _ => "list"
  | PDict _ => "dict"
  | PMapping cls _ => cls
  | PObject cls _ => cls
  end.

(** [v[k]] for a string key [k]. *)
Definition getitem (v : pyval) (k : string) : result pyval :=
  match v with
  | PDict d | PMapping _ d =>
      match dict_get d k with
      | Some x => Ok x
      | None => Raise (KeyError k)
      end
  | PList _ => Raise (TypeError "list indices must be integers or slices, not str")
  | PStr _ => Raise (TypeError "string indices must be integers, not 'str'")
  | _ => Raise (TypeError ("'" ++ type_name v ++ "' object is not subscriptable"))
  end.

(** [v.get(k, default)]. *)
Definition get (v : pyval) (k : string) (default : pyval) : result pyval :=
  match v with
  | PDict d | PMapping _ d =>
      match dict_get d k with
      | Some x => Ok x
      | None => Ok default
      end
  | _ => Raise (AttributeError
                  ("'" ++ type_name v ++ "' object has no attribute 'get'"))
  end.

(** [v.items()]. *)
Definition items (v : pyval) : result pydict :=
  match v with
  | PDict d | PMapping _ d => Ok d
  | _ => Raise (AttributeError
                  ("'" ++ type_name v ++ "' object has no attribute 'items'"))
  end.

(** [getattr(v, name, default)]: only a [PObject] carries attributes of
    its own. *)
Definition getattr_default (v : pyval) (name : string) (default : pyval)
  : pyval :=
  match v with
  | PObject _ attrs =>
      match dict_get attrs name with
      | Some x => x
      | None => default
      end
  | _ => default
  end.

(** [isinstance(v, dict)]. *)
Definition is_dict (v : pyval) : bool :=
  match v with PDict _ => true | _ => false end.

(** [str(z)] for an integer. *)
Definition string_of_Z (z : Z) : string :=
  NilZero.string_of_int (Z.to_int z).

Definition hex_digit (n : N) : ascii :=
  match n with
  | 0%N => "0" | 1%N => "1" | 2%N => "2" | 3%N => "3"
  | 4%N => "4" | 5%N => "5" | 6%N => "6" | 7%N => "7"
  | 8%N => "8" | 9%N => "9" | 10%N => "a" | 11%N => "b"
  | 12%N => "c" | 13%N => "d" | 14%N => "e" | _ => "f"
  end%char.

Definition backslash : ascii := "092"%char.

Fixpoint str_mem (c : ascii) (s : string) : bool :=
  match s with
  | EmptyString => false
  | String c' s' => Ascii.eqb c c' || str_mem c s'
  end.

(** One character of the [repr] of a string written between [quote]s.
    Below 256 the code points Python does not print are the controls, the
    no-break space and the soft hyphen. *)
Definition repr_char (quote c : ascii) : string :=
  let n := N_of_ascii c in
  if Ascii.eqb c quote || Ascii.eqb c backslash then String backslash (String c "")
  else if (n =? 9)%N then String backslash "t"
  else if (n =? 10)%N then String backslash "n"
  else if (n =? 13)%N then String backslash "r"
  else if ((n <? 32) || (n =? 127) || ((128 <=? n) && (n <=? 160)) || (n =? 173))%N
       then String backslash
              (String "x" (String (hex_digit (n / 16))
                             (String (hex_digit (n mod 16)) "")))
  else String c "".

(** [repr(s)]: single quotes, unless [s] has a single quote and no double
    one. *)
Definition repr_str (s : string) : string :=
  let quote := if str_mem "'" s && negb (str_mem "034" s)
               then "034"%char else "'"%char in
  String quote
    ((fix go (s : string) : string :=
        match s with
        | EmptyString => String quote ""
        | String c s' => repr_char quote c ++ go s'
        end) s).

(** [repr(v)].  The text Python shows for an object that defines none
    holds the address of the object; the model shows the class only. *)
Fixpoint py_repr (v : pyval) : string :=
  match v with
  | PNone => "None"
  | PBool true => "True"
  | PBool false => "False"
  | PInt z => string_of_Z z
  | PStr s => repr_str s
  | PList l => "[" ++ String.concat ", " (map py_repr l) ++ "]"
  | PDict d =>
      "{" ++ String.concat ", "
               (map (fun kv => let '(k, x) := kv in
                               repr_str k ++ ": " ++ py_repr x) d) ++ "}"
  | PMapping cls _ | PObject cls _ => "<" ++ cls ++ " object>"
  end.

(** [str(v)], which is what an f-string puts for [{v}]. *)
Definition py_str (v : pyval) : string :=
  match v with
  | PStr s => s
  | _ => py_repr v
  end.

(** [str(e)] for an exception.  A [KeyError] shows the [repr] of its key;
    every key the programs subscript with is a literal identifier, whose
    [repr] is the key between single quotes. *)
Definition exn_str (e : exn) : string :=
  match e with
  | KeyError k => "'" ++ k ++ "'"
  | TypeError m | AttributeError m | JSONDecodeError m
  | RequestException m | BackendError m => m
  end.

End Py.
Import Py.

Declare Scope result_scope.
Delimit Scope result_scope with result.
Notation "x <- c ;; k" := (bind c (fun x => k))
  (at level 61, c at next level, right associativity) : result_scope.
Notation "x <~ c ;; k" := (mbind c (fun x => k))
  (at level 61, c at next level, right associativity) : result_scope.
Local Open Scope result_scope.

(** ** Python's [json] module on [pyval]

    [dumps] follows [json.dumps] with its default options (separators
    [", "] and [": "], [ensure_ascii=True]); [loads] follows the scanner of
    [json.loads].  Numbers with a fraction or an exponent and the literals
    [NaN] and [Infinity] are floats, and [\uXXXX] escapes above [00ff] are
    code points outside the model: [loads] rejects them. *)

Module Json.

Definition dquote : ascii := "034"%char.

(** The replacement of one character in [encode_basestring_ascii]: the
    characters from space to tilde stand for themselves, except the quote
    and the backslash. *)
Definition escape_char (c : ascii) : string :=
  let n := N_of_ascii c in
  if Ascii.eqb c dquote then String backslash (String dquote "")
  else if Ascii.eqb c backslash then String backslash (String backslash "")
  else if (n =? 10)%N then String backslash "n"
  else if (n =? 13)%N then String backslash "r"
  else if (n =? 9)%N then String backslash "t"
  else if (n =? 12)%N then String backslash "f"
  else if (n =? 8)%N then String backslash "b"
  else if ((32 <=? n) && (n <=? 126))%N then String c ""
  else String backslash
         (String "u" (String "0" (String "0"
            (String (hex_digit (n / 16)) (String (hex_digit (n mod 16)) ""))))).

Fixpoint escape (s : string) : string :=
  match s with
  | EmptyString => ""
  | String c s' => escape_char c ++ escape s'
  end.

Definition encode_basestring_ascii (s : string) : string :=
  String dquote (escape s ++ String dquote "").

Fixpoint dumps (v : pyval) : result string :=
  match v with
  | PNone => Ok "null"
  | PBool true => Ok "true"
  | PBool false => Ok "false"
  | PInt z => Ok (string_of_Z z)
  | PStr s => Ok (encode_basestring_ascii s)
  | PList l =>
      ss <- mapM dumps l;;
      Ok ("[" ++ String.concat ", " ss ++ "]")
  | PDict d =>
      ss <- mapM (fun kv =>
                    let '(k, x) := kv in
                    s <- dumps x;;
                    Ok (encode_basestring_ascii k ++ ": " ++ s)) d;;
      Ok ("{" ++ String.concat ", " ss ++ "}")
  | PMapping cls _ | PObject cls _ =>
      Raise (TypeError ("Object of type " ++ cls ++ " is not JSON serializable"))
  end.

(** *** The scanner *)

Definition is_ws (c : ascii) : bool :=
  let n := N_of_ascii c in
  ((n =? 32) || (n =? 9) || (n =? 10) || (n =? 13))%N.

Fixpoint skip_ws (s : string) : string :=
  match s with
  | String c s' => if is_ws c then skip_ws s' else s
  | EmptyString => s
  end.

Definition hex_value (c : ascii) : option N :=
  let n := N_of_ascii c in
  if ((48 <=? n) && (n <=? 57))%N then Some (n - 48)%N
  else if ((97 <=? n) && (n <=? 102))%N then Some (n - 87)%N
  else if ((65 <=? n) && (n <=? 70))%N then Some (n - 55)%N
  else None.

(** The character a [\uXXXX] escape stands for, when it is below 256. *)
Definition decode_uXXXX (h1 h2 h3 h4 : ascii) : option ascii :=
  match hex_value h1, hex_value h2, hex_value h3, hex_value h4 with
  | Some a, Some b, Some c, Some d =>
      let n := (((a * 16 + b) * 16 + c) * 16 + d)%N in
      if (n <? 256)%N then Some (ascii_of_N n) else None
  | _, _, _, _ => None
  end.

(** The character a one-letter escape stands for ([BACKSLASH] table). *)
Definition unescape (e : ascii) : option ascii :=
  if Ascii.eqb e dquote then Some dquote
  else if Ascii.eqb e backslash then Some backslash
  else match e with
       | "/" => Some "/"
       | "b" => Some "008"
       | "f" => Some "012"
       | "n" => Some "010"
       | "r" => Some "013"
       | "t" => Some "009"
       | _ => None
       end%char.

(** [scanstring], entered after the opening quote: the decoded string and
    the text after the closing quote.  In strict mode a raw control
    character ends the scan with an error. *)
Fixpoint scanstring (s : string) : option (string * string) :=
  match s with
  | EmptyString => None
  | String c s' =>
      if Ascii.eqb c dquote then Some ("", s')
      else if Ascii.eqb c backslash then
        match s' with
        | String "u" (String h1 (String h2 (String h3 (String h4 t)))) =>
            match decode_uXXXX h1 h2 h3 h4 with
            | Some c' =>
                match scanstring t with
                | Some (r, rest) => Some (String c' r, rest)
                | None => None
                end
            | None => None
            end
        | String e t =>
            match unescape e with
            | Some c' =>
                match scanstring t with
                | Some (r, rest) => Some (String c' r, rest)
                | None => None
                end
            | None => None
            end
        | EmptyString => None
        end
      else if (N_of_ascii c <? 32)%N then None
      else match scanstring s' with
           | Some (r, rest) => Some (String c r, rest)
           | None => None
           end
  end.

Definition digit_of (c : ascii) : option (uint -> uint) :=
  match c with
  | "0" => Some D0 | "1" => Some D1 | "2" => Some D2 | "3" => Some D3
  | "4" => Some D4 | "5" => Some D5 | "6" => Some D6 | "7" => Some D7
  | "8" => Some D8 | "9" => Some D9 | _ => None
  end%char.

(** The longest run of digits at the head of the text. *)
Fixpoint scan_digits (s : string) : uint * string :=
  match s with
  | String c s' =>
      match digit_of c with
      | Some d => let (u, rest) := scan_digits s' in (d u, rest)
      | None => (Nil, s)
      end
  | EmptyString => (Nil, s)
  end.

(** A number is a float when a fraction or an exponent follows. *)
Definition float_follows (s : string) : bool :=
  match s with
  | String "." _ | String "e" _ | String "E" _ => true
  | _ => false
  end%char.

(** The integer part of [NUMBER_RE], a zero or a run of digits that does
    not start with one: after a leading zero the number is over. *)
Definition scan_uint (s : string) : option (uint * string) :=
  match s with
  | String "0" rest => Some (D0 Nil, rest)
  | _ => match scan_digits s with
         | (Nil, _) => None
         | (u, rest) => Some (u, rest)
         end
  end%char.

Definition scan_number (s : string) : option (pyval * string) :=
  match s with
  | String "-" s' =>
      match scan_uint s' with
      | Some (u, rest) =>
          if float_follows rest then None
          else Some (PInt (Z.of_int (Neg u)), rest)
      | None => None
      end
  | _ =>
      match scan_uint s with
      | Some (u, rest) =>
          if float_follows rest then None
          else Some (PInt (Z.of_int (Pos u)), rest)
      | None => None
      end
  end%char.

(** [expect lit s]: the text after the literal [lit] at the head of [s]. *)
Fixpoint expect (lit s : string) : option string :=
  match lit, s with
  | EmptyString, _ => Some s
  | String a lit', String b s' =>
      if Ascii.eqb a b then expect lit' s' else None
  | String _ _, EmptyString => None
  end.

(** [scan_once] with [JSONArray] and [JSONObject]; the recursion of the
    scanner is bounded by [fuel]. *)
Fixpoint scan_once (fuel : nat) (s : string) : option (pyval * string) :=
  match fuel with
  | O => None
  | S fuel' =>
      match s with
      | String c r =>
          if Ascii.eqb c dquote then
            match scanstring r with
            | Some (str, rest) => Some (PStr str, rest)
            | None => None
            end
          else
            match c with
            | "{" =>
                match expect "}" (skip_ws r) with
                | Some rest => Some (PDict [], rest)
                | None =>
                    match scan_members fuel' (skip_ws r) with
                    | Some (ps, rest) => Some (PDict (dict_of_pairs ps), rest)
                    | None => None
                    end
                end
            | "[" =>
                match expect "]" (skip_ws r) with
                | Some rest => Some (PList [], rest)
                | None =>
                    match scan_elements fuel' (skip_ws r) with
                    | Some (vs, rest) => Some (PList vs, rest)
                    | None => None
                    end
                end
            | "n" => match expect "ull" r with
                     | Some rest => Some (PNone, rest)
                     | None => None
                     end
            | "t" => match expect "rue" r with
                     | Some rest => Some (PBool true, rest)
                     | None => None
                     end
            | "f" => match expect "alse" r with
                     | Some rest => Some (PBool false, rest)
                     | None => None
                     end
            | _ => scan_number s
            end%char
      | EmptyString => None
      end
  end

with scan_elements (fuel : nat) (s : string) : option (list pyval * string) :=
  match fuel with
  | O => None
  | S fuel' =>
      match scan_once fuel' s with
      | Some (v, r) =>
          match expect "," (skip_ws r) with
          | Some r' =>
              match scan_elements fuel' (skip_ws r') with
              | Some (vs, rest) => Some (v :: vs, rest)
              | None => None
              end
          | None =>
              match expect "]" (skip_ws r) with
              | Some rest => Some ([v], rest)
              | None => None
              end
          end
      | None => None
      end
  end

with scan_members (fuel : nat) (s : string)
  : option (list (string * pyval) * string) :=
  match fuel with
  | O => None
  | S fuel' =>
      match expect (String dquote "") s with
      | Some r =>
          match scanstring r with
          | Some (k, r1) =>
              match expect ":" (skip_ws r1) with
              | Some r2 =>
                  match scan_once fuel' (skip_ws r2) with
                  | Some (v, r3) =>
                      match expect "," (skip_ws r3) with
                      | Some r4 =>
                          match scan_members fuel' (skip_ws r4) with
                          | Some (ps, rest) => Some ((k, v) :: ps, rest)
                          | None => None
                          end
                      | None =>
                          match expect "}" (skip_ws r3) with
                          | Some rest => Some ([(k, v)], rest)
                          | None => None
                          end
                      end
                  | None => None
                  end
              | None => None
              end
          | None => None
          end
      | None => None
      end
  end.

(** [json.loads]: leading white space, one value, trailing white space,
    and nothing more. *)
Definition loads (s : string) : result pyval :=
  match scan_once (S (String.length s)) (skip_ws s) with
  | Some (v, rest) =>
      match skip_ws rest with
      | EmptyString => Ok v
      | _ => Raise (JSONDecodeError "Extra data")
      end
  | None => Raise (JSONDecodeError "Expecting value")
  end.

End Json.


(** ** [swarm/clients/gemini_client.py] *)

Module Gemini.

(** [class DotDict(dict)]: a dictionary whose keys can also be read as
    attributes.  As data it is the dictionary. *)
Definition DotDict (d : pydict) : pyval := PDict d.

(** [DotDict.__getattr__]. *)
Definition __getattr__ (self : pyval) (item : string) : result pyval :=
  getitem self item.

(** [DotDict._is_serializable]: [json.dumps] raised nothing. *)
Definition _is_serializable (value : pyval) : bool :=
  returned (Json.dumps value).

(** [DotDict.model_dump_json]. *)
Definition model_dump_json (self : pydict) : result string :=
  let serializable_dict :=
    dict_of_pairs (filter (fun kv => _is_serializable (snd kv)) self) in
  Json.dumps (PDict serializable_dict).

(** The SDK's request classes, as the arguments the adapter gives their
    constructors. *)
Record Part : Type := from_text { text : pyval }.
Record Content : Type := { role : pyval; parts : list Part }.
Record FunctionDeclaration : Type :=
  { name : pyval; description : pyval; parameters : pyval }.
Record Tool : Type := { function_declarations : list FunctionDeclaration }.

(** The SDK's reply, as the attributes the adapter reads:
    [response.candidates], [candidate.function_calls],
    [candidate.content.text], [function_call.name], [function_call.args]. *)
Record FunctionCall : Type := { fc_name : string; args : pyval }.
Record Candidate : Type :=
  { function_calls : list FunctionCall; content_text : string }.
Record GenerationResponse : Type := { candidates : list Candidate }.

(** [GenerativeModel]: the one method the adapter calls. *)
Record GenerativeModel : Type :=
  { generate_content : list Content -> list Tool -> result GenerationResponse }.

(** What the adapter can do to the world: print, draw a random UUID, and
    call the backend.  [uuid_source] is the sequence of UUIDs the generator
    is going to give, [uuid_drawn] how many were taken. *)
Record world : Type :=
  { stdout : list string;
    uuid_source : nat -> string;
    uuid_drawn : nat;
    sent : list (list Content * list Tool) }.

(** The three changes of the world. *)
Definition printed (w : world) (line : string) : world :=
  {| stdout := stdout w ++ [line];
     uuid_source := uuid_source w;
     uuid_drawn := uuid_drawn w;
     sent := sent w |}.

Definition drawn (w : world) : world :=
  {| stdout := stdout w;
     uuid_source := uuid_source w;
     uuid_drawn := S (uuid_drawn w);
     sent := sent w |}.

Definition called (w : world) (history : list Content) (tools : list Tool)
  : world :=
  {| stdout := stdout w;
     uuid_source := uuid_source w;
     uuid_drawn := uuid_drawn w;
     sent := sent w ++ [(history, tools)] |}.

Definition print (line : string) : M world unit :=
  fun w => (Ok tt, printed w line).

(** [str(uuid.uuid4())]. *)
Definition uuid4 : M world string :=
  fun w => (Ok (uuid_source w (uuid_drawn w)), drawn w).

(** [model.generate_content(history, tools=tools)]: the one outbound call. *)
Definition call_generate_content (model : GenerativeModel)
  (history : list Content) (tools : list Tool) : M world GenerationResponse :=
  fun w => (generate_content model history tools, called w history tools).

Definition _convert_swarm_tool_to_gemini_tool (swarm_tool : pydict)
  : result Tool :=
  function_details <- getitem (PDict swarm_tool) "function";;
  parameters1 <- getitem function_details "parameters";;
  properties <- get parameters1 "properties" (PDict []);;
  parameters2 <- getitem function_details "parameters";;
  required <- get parameters2 "required" (PList []);;
  fname <- getitem function_details "name";;
  fdescription <- get function_details "description" (PStr "");;
  props <- items properties;;
  converted <-
    mapM (fun kv =>
            let '(key, prop) := kv in
            ty <- get prop "type" PNone;;
            de <- get prop "description" (PStr "");;
            Ok (key, PDict [("type", ty); ("description", de)])) props;;
  let function_declaration :=
    {| name := fname;
       description := fdescription;
       parameters :=
         PDict [("type", PStr "object");
                ("properties", PDict (dict_of_pairs converted));
                ("required", required)] |} in
  Ok {| function_declarations := [function_declaration] |}.

Definition _serialize_function_call (function_call : FunctionCall)
  : result pyval :=
  if is_dict (args function_call) then Ok (args function_call)
  else
    kvs <- items (args function_call);;
    Ok (PDict (dict_of_pairs
                 (map (fun kv =>
                         let '(key, value) := kv in
                         (key, getattr_default value "string_value" value))
                    kvs))).

Definition _create_function_structure (function_call : FunctionCall)
  : result pyval :=
  serialized_function_call <- _serialize_function_call function_call;;
  arguments <- Json.dumps serialized_function_call;;
  Ok (DotDict [("name", PStr (fc_name function_call));
               ("arguments", PStr arguments)]).

Definition _create_tool_call (function_call : FunctionCall) : M world pyval :=
  id <~ uuid4;;
  function <~ lift (_create_function_structure function_call);;
  ret (DotDict [("id", PStr id);
                ("function", function);
                ("type", PStr "function")]).

Definition role_mapping : list (string * string) :=
  [("assistant", "model"); ("tool", "model")].

(** [role_mapping.get(r, r)]: a list or a dictionary cannot be hashed. *)
Definition role_mapping_get (r : pyval) : result pyval :=
  match r with
  | PStr s =>
      match dict_get role_mapping s with
      | Some mapped => Ok (PStr mapped)
      | None => Ok r
      end
  | PList _ | PDict _ =>
      Raise (TypeError ("unhashable type: '" ++ type_name r ++ "'"))
  | _ => Ok r
  end.

Definition _convert_message (message : pydict) : result Content :=
  r <- getitem (PDict message) "role";;
  role <- role_mapping_get r;;
  if dict_mem message "function_call" then
    fc1 <- getitem (PDict message) "function_call";;
    fname <- getitem fc1 "name";;
    fc2 <- getitem (PDict message) "function_call";;
    farguments <- getitem fc2 "arguments";;
    Ok {| role := role;
          parts := [from_text
                      (PStr (py_str fname ++ "(" ++ py_str farguments ++ ")"))] |}
  else if dict_mem message "tool_name" then
    content <- getitem (PDict message) "content";;
    Ok {| role := role; parts := [from_text content] |}
  else
    content <- get (PDict message) "content" (PStr "");;
    Ok {| role := role; parts := [from_text content] |}.

(** The keyword arguments [create] looks at. *)
Record kwargs : Type :=
  { messages : option (list pydict); tools : option (list pydict) }.

Definition kwargs_get {A : Type} (o : option (list A)) : list A :=
  match o with Some l => l | None => [] end.

(** [msg["role"] != "system"]. *)
Definition not_system (msg : pydict) : result bool :=
  r <- getitem (PDict msg) "role";;
  Ok (match r with
      | PStr s => negb (String.eqb s "system")
      | _ => true
      end).

Definition blocked_message : string :=
  "The response was blocked by safety filters and no candidates were returned.".

(** The second half of [Completions.create], from the test of
    [response.candidates] to the end: the reply of the backend made into
    the envelope the caller of [create] receives. *)
Definition translate_response (response : GenerationResponse) : M world pyval :=
  match candidates response with
  | [] =>
      _ <~ print "DEBUG: Response blocked by safety filters. No candidates were returned.";;
      ret (DotDict
             [("choices",
               PList [DotDict
                        [("message",
                          DotDict [("content", PStr blocked_message);
                                   ("tool_calls", PNone);
                                   ("role", PStr "assistant");
                                   ("sender", PStr "assistant")])]])])
  | candidate0 :: _ =>
      match function_calls candidate0 with
      | function_call :: _ =>
          tool_call <~ _create_tool_call function_call;;
          serialized <~ lift (_serialize_function_call function_call);;
          arguments <~ lift (Json.dumps serialized);;
          ret (DotDict
                 [("choices",
                   PList [DotDict
                            [("message",
                              DotDict
                                [("function_call",
                                  PDict [("name", PStr (fc_name function_call));
                                         ("arguments", PStr arguments)]);
                                 ("tool_calls", PList [tool_call]);
                                 ("role", PStr "assistant");
                                 ("content", PStr "");
                                 ("sender", PStr "assistant")])]])])
      | [] =>
          ret (DotDict
                 [("choices",
                   PList [DotDict
                            [("message",
                              DotDict [("content", PStr (content_text candidate0));
                                       ("tool_calls", PNone);
                                       ("role", PStr "assistant");
                                       ("sender", PStr "assistant")])]])])
      end
  end.

(** The first half of [Completions.create]: the conversation and the tools
    in the form the backend takes.  It has no effect on the world. *)
Definition build_request (kw : kwargs) : result (list Content * list Tool) :=
  let messages := kwargs_get (messages kw) in
  let swarm_tools := kwargs_get (tools kw) in
  filtered_messages <- filterM not_system messages;;
  gemini_tools <- mapM _convert_swarm_tool_to_gemini_tool swarm_tools;;
  conversation_history <- mapM _convert_message filtered_messages;;
  Ok (conversation_history, gemini_tools).

(** [Completions.create]. *)
Definition create (model : GenerativeModel) (kw : kwargs) : M world pyval :=
  request <~ lift (build_request kw);;
  let '(conversation_history, gemini_tools) := request in
  response <~ call_generate_content model conversation_history gemini_tools;;
  translate_response response.

End Gemini.

(** ** [examples/weather_agent_gemini/agents.py] *)

Module Weather.

(** [requests]: what [requests.get(url, params=...)] gives, and what the
    [json()] of the response gives. *)
Record Response : Type := { json : result pyval }.
Record Requests : Type := { http_get : string -> pydict -> result Response }.

Record world : Type :=
  { stdout : list string; environ : list (string * string) }.

Definition print (line : string) : M world unit :=
  fun w => (Ok tt, {| stdout := stdout w ++ [line]; environ := environ w |}).

(** [os.getenv(name)]. *)
Definition getenv (name : string) : M world pyval :=
  fun w => (Ok (match dict_get (environ w) name with
                | Some v => PStr v
                | None => PNone
                end), w).

(** The truth value [if api_key:] tests, for what [os.getenv] can give. *)
Definition truthy (v : pyval) : bool :=
  match v with
  | PStr EmptyString => false
  | PStr _ => true
  | _ => false
  end.

Definition mock_temperature : string := "65".

(** The body of the [try] block. *)
Definition lookup (requests : Requests) (location api_key time : pyval)
  : result string :=
  response <- http_get requests "http://api.openweathermap.org/data/2.5/weather"
                [("q", location); ("appid", api_key); ("units", PStr "metric")];;
  data <- json response;;
  data_name <- getitem data "name";;
  data_main <- getitem data "main";;
  data_temp <- getitem data_main "temp";;
  Json.dumps (PDict [("location", data_name);
                     ("temperature", data_temp);
                     ("time", time)]).

(** [get_weather(location, time="now")]: [time = None] is a call without
    the second argument. *)
Definition get_weather (requests : Requests) (location : pyval)
  (time : option pyval) : M world string :=
  let time := match time with Some t => t | None => PStr "now" end in
  api_key <~ getenv "OPENWEATHERMAP_API_KEY";;
  found <~ (if truthy api_key then
              try_except
                (s <~ lift (lookup requests location api_key time);;
                 ret (Some s))
                (fun e =>
                   _ <~ print ("API call failed: " ++ exn_str e
                               ++ ". Using mock data.");;
                   ret None)
            else ret None);;
  match found with
  | Some s => ret s
  | None =>
      lift (Json.dumps (PDict [("location", location);
                               ("temperature", PStr mock_temperature);
                               ("time", time)]))
  end.

End Weather.

(** ** Predicates on values used by the statements *)

Module Shape.

(** [json.dumps] accepts the value: no object anywhere in it. *)
Fixpoint serializable (v : pyval) : bool :=
  match v with
  | PList l => forallb serializable l
  | PDict d => forallb (fun kv => serializable (snd kv)) d
  | PMapping _ _ | PObject _ _ => false
  | _ => true
  end.

(** Every dictionary in the value has each key once, as a Python [dict]
    has. *)
Fixpoint well_formed (v : pyval) : bool :=
  match v with
  | PList l => forallb well_formed l
  | PDict d | PMapping _ d | PObject _ d =>
      keys_unique d && forallb (fun kv => well_formed (snd kv)) d
  | _ => true
  end.

(** A value of JSON: what [json.loads] can give back. *)
Definition json_value (v : pyval) : bool := serializable v && well_formed v.

(** The number of nodes of a value, list cells counted; it bounds the depth
    of the recursion of the scanner. *)
Fixpoint size (v : pyval) : nat :=
  match v with
  | PList l => S (list_sum (map (fun x => S (size x)) l))
  | PDict d | PMapping _ d | PObject _ d =>
      S (list_sum (map (fun kv => S (size (snd kv))) d))
  | _ => 1
  end.

(** What may follow the text of a value without changing how a number at
    its end is read. *)
Definition terminated (rest : string) : bool :=
  match rest with
  | EmptyString => true
  | String c _ =>
      match Json.digit_of c with
      | Some _ => false
      | None => negb (Json.float_follows rest)
      end
  end.

Import Json.

Definition head_digit (s : string) : bool :=
  match s with
  | String c _ => match digit_of c with Some _ => true | None => false end
  | EmptyString => false
  end.

Definition number_head (c : ascii) : bool :=
  Ascii.eqb c "-" || match digit_of c with Some _ => true | None => false end.

Definition value_head (c : ascii) : bool :=
  number_head c || Ascii.eqb c dquote || Ascii.eqb c "[" || Ascii.eqb c "{"
  || Ascii.eqb c "n" || Ascii.eqb c "t" || Ascii.eqb c "f".

Definition headed (text : string) : Prop :=
  exists c t, text = String c t /\ value_head c = true.

(** What the scanner is to give for the text of [v]. *)
Definition scans_back (v : pyval) : Prop :=
  well_formed v = true ->
  forall text, dumps v = Ok text ->
  forall rest fuel, terminated rest = true -> size v <= fuel ->
  scan_once fuel (text ++ rest) = Some (v, rest).

(** The text of one member of an object, as [dumps] writes it. *)
Definition dumps_member (kv : string * pyval) : result string :=
  let '(k, x) := kv in
  s <- dumps x;;
  Ok (encode_basestring_ascii k ++ ": " ++ s).

Definition short (v : pyval) : Prop :=
  forall text, dumps v = Ok text -> size v <= String.length text.

(** The envelope around a message: one choice, holding the message. *)
Definition envelope (message : pydict) : pyval :=
  PDict [("choices", PList [PDict [("message", PDict message)]])].

(** The role the adapter gives to a message of role [r]. *)
Definition mapped_role (r : string) : string :=
  if String.eqb r "assistant" || String.eqb r "tool" then "model" else r.

(** The message has the role ["system"]. *)
Definition is_system (message : pydict) : bool :=
  match dict_get message "role" with
  | Some (PStr r) => String.eqb r "system"
  | _ => false
  end.

(** The time [get_weather] works with: the argument, or ["now"]. *)
Definition given_time (time : option pyval) : pyval :=
  match time with Some t => t | None => PStr "now" end.

(** The value of [os.getenv("OPENWEATHERMAP_API_KEY")] in a world. *)
Definition api_key_of (w : Weather.world) : pyval :=
  match dict_get (Weather.environ w) "OPENWEATHERMAP_API_KEY" with
  | Some v => PStr v
  | None => PNone
  end.

(** The mock response, before it is serialised. *)
Definition mock_response (location time : pyval) : pyval :=
  PDict [("location", location);
         ("temperature", PStr Weather.mock_temperature);
         ("time", time)].

(** The serialised arguments, as both [_create_function_structure] and
    the [function_call] field compute them. *)
Definition arguments_of (fc : Gemini.FunctionCall) : result string :=
  serialized <- Gemini._serialize_function_call fc;;
  Json.dumps serialized.

End Shape.
Import Shape.

(** ** Sample conversations, backends and worlds *)

Module Samples.
Import Gemini.

Definition world0 : world :=
  {| stdout := [];
     uuid_source := fun n => "call-" ++ string_of_Z (Z.of_nat n);
     uuid_drawn := 0;
     sent := [] |}.

Definition system_message : pydict :=
  [("role", PStr "system"); ("content", PStr "You are a helpful agent.")].
Definition user_message : pydict :=
  [("role", PStr "user"); ("content", PStr "What is the weather in Paris?")].
Definition assistant_message : pydict :=
  [("role", PStr "assistant"); ("content", PStr "Let me look.")].
Definition tool_message : pydict :=
  [("role", PStr "tool"); ("tool_name", PStr "get_weather")].
Definition bare_message : pydict := [("role", PStr "user")].

Definition weather_tool : pydict :=
  [("type", PStr "function");
   ("function",
    PDict [("name", PStr "get_weather");
           ("description", PStr "Get the current weather in a given location.");
           ("parameters",
            PDict [("type", PStr "object");
                   ("properties",
                    PDict [("location", PDict [("type", PStr "string")]);
                           ("time", PDict [("type", PStr "string")])]);
                   ("required", PList [PStr "location"])])])].

Definition conversation : kwargs :=
  {| messages := Some [system_message; user_message; assistant_message];
     tools := Some [weather_tool] |}.

Definition replying (response : GenerationResponse) : GenerativeModel :=
  {| generate_content := fun _ _ => Ok response |}.

Definition blocked_reply : GenerationResponse := {| candidates := [] |}.

Definition text_reply : GenerationResponse :=
  {| candidates :=
       [{| function_calls := []; content_text := "It is sunny in Paris." |}] |}.

Definition weather_call : FunctionCall :=
  {| fc_name := "get_weather";
     args := PMapping "MapComposite" [("location", PStr "Paris")] |}.

Definition call_reply : GenerationResponse :=
  {| candidates := [{| function_calls := [weather_call]; content_text := "" |}] |}.

(** A call whose argument is a list, which the SDK gives as a container
    object of its own. *)
Definition cities_call : FunctionCall :=
  {| fc_name := "get_weather_for";
     args := PMapping "MapComposite"
               [("locations", PObject "RepeatedComposite" [])] |}.

Definition cities_reply : GenerationResponse :=
  {| candidates := [{| function_calls := [cities_call]; content_text := "" |}] |}.

End Samples.

Module WeatherSamples.
Import Weather.

Definition no_credential : world := {| stdout := []; environ := [("HOME", "/root")] |}.

Definition with_credential : world :=
  {| stdout := []; environ := [("OPENWEATHERMAP_API_KEY", "0123456789abcdef")] |}.

Definition unreachable : Requests :=
  {| http_get := fun _ _ => Raise (RequestException "Connection refused") |}.

Definition answering (payload : result pyval) : Requests :=
  {| http_get := fun _ _ => Ok {| json := payload |} |}.

Definition paris_payload : pyval :=
  PDict [("name", PStr "Paris");
         ("main", PDict [("temp", PInt 21); ("humidity", PInt 40)])].

Definition error_payload : pyval :=
  PDict [("cod", PInt 401); ("message", PStr "Invalid API key.")].

End WeatherSamples.

(** ** Further notions used by the statements *)

Module Views.
Import Gemini.

(** What [_convert_swarm_tool_to_gemini_tool] keeps of the schema of one
    property: its [type], [None] when there is none, and its
    [description], empty when there is none. *)
Definition property_schema (prop : pyval) : pyval :=
  match prop with
  | PDict p | PMapping _ p =>
      PDict [("type", match dict_get p "type" with
                      | Some ty => ty
                      | None => PNone
                      end);
             ("description", match dict_get p "description" with
                             | Some de => de
                             | None => PStr ""
                             end)]
  | _ => PNone
  end.

(** The value has the method [get]. *)
Definition has_get (v : pyval) : bool :=
  match v with PDict _ | PMapping _ _ => true | _ => false end.

(** [getattr(value, "string_value", value)] on every value. *)
Definition unwrapped (kvs : pydict) : pydict :=
  map (fun kv : string * pyval =>
         let '(key, value) := kv in
         (key, getattr_default value "string_value" value)) kvs.

Definition debug_line : string :=
  "DEBUG: Response blocked by safety filters. No candidates were returned.".

(** The reply carries a function call in its first candidate. *)
Definition calls_function (response : GenerationResponse) : bool :=
  match candidates response with
  | candidate0 :: _ =>
      match function_calls candidate0 with
      | _ :: _ => true
      | [] => false
      end
  | [] => false
  end.

(** The one request of [get_weather]. *)
Definition weather_url : string :=
  "http://api.openweathermap.org/data/2.5/weather".

Definition weather_params (location api_key : pyval) : pydict :=
  [("q", location); ("appid", api_key); ("units", PStr "metric")].

End Views.
Import Views.

Module MoreSamples.
Import Gemini.

(** A DotDict one of whose values [json.dumps] does not accept. *)
Definition mixed_dotdict : pydict :=
  [("content", PStr "It is sunny.");
   ("raw", PObject "GenerationResponse" []);
   ("tool_calls", PNone);
   ("usage", PDict [("tokens", PInt 12)])].

Definition tool_without_function : pydict := [("type", PStr "function")].

Definition tool_without_parameters : pydict :=
  [("function", PDict [("description", PStr "No parameters and no name.")])].

Definition tool_without_name : pydict :=
  [("function", PDict [("parameters", PDict [])])].

(** The arguments as objects that carry a [string_value]. *)
Definition wrapped_call : FunctionCall :=
  {| fc_name := "get_weather";
     args := PMapping "MapComposite"
               [("location", PObject "Value" [("string_value", PStr "Paris")]);
                ("days", PInt 3)] |}.

Definition no_args_call : FunctionCall :=
  {| fc_name := "get_time"; args := PNone |}.

Definition no_args_reply : GenerationResponse :=
  {| candidates := [{| function_calls := [no_args_call]; content_text := "" |}] |}.

(** Two candidates, the first with two function calls and a text. *)
Definition crowded_reply : GenerationResponse :=
  {| candidates :=
       [{| function_calls :=
             [Samples.weather_call;
              {| fc_name := "get_time"; args := PDict [] |}];
           content_text := "I am going to look it up." |};
        {| function_calls := []; content_text := "It is sunny." |}] |}.

Definition roleless_message : pydict := [("content", PStr "hello")].

(** An assistant message as the framework stores it after a turn without
    a function call: the key is there, with [None]. *)
Definition stored_assistant_message : pydict :=
  [("content", PStr "Hello."); ("role", PStr "assistant");
   ("function_call", PNone); ("tool_calls", PNone)].

Definition call_message : pydict :=
  [("role", PStr "assistant"); ("content", PNone);
   ("function_call",
    PDict [("name", PStr "get_weather");
           ("arguments", PStr "{}")]);
   ("tool_name", PStr "ignored")].

Definition failing : GenerativeModel :=
  {| generate_content := fun _ _ => Raise (BackendError "503 Service Unavailable") |}.

End MoreSamples.

Module MoreWeatherSamples.
Import Weather.

(** A service that knows the weather URL only. *)
Definition weather_only : Requests :=
  {| http_get := fun url _ =>
       if String.eqb url weather_url
       then Ok {| json := Ok WeatherSamples.paris_payload |}
       else Raise (RequestException "404 Not Found") |}.

End MoreWeatherSamples.


(** * Facts *)

(** ** Induction on values *)

Section PyvalInd.
Variable P : pyval -> Prop.
Hypothesis HNone : P PNone.
Hypothesis HBool : forall b, P (PBool b).
Hypothesis HInt : forall z, P (PInt z).
Hypothesis HStr : forall s, P (PStr s).
Hypothesis HList : forall l, Forall P l -> P (PList l).
Hypothesis HDict : forall d, Forall (fun kv => P (snd kv)) d -> P (PDict d).
Hypothesis HMapping :
  forall cls d, Forall (fun kv => P (snd kv)) d -> P (PMapping cls d).
Hypothesis HObject :
  forall cls d, Forall (fun kv => P (snd kv)) d -> P (PObject cls d).

Fixpoint pyval_ind (v : pyval) : P v :=
  let members :=
    fix members (d : list (string * pyval))
      : Forall (fun kv => P (snd kv)) d :=
      match d with
      | [] => Forall_nil _
      | kv :: d' => Forall_cons kv (pyval_ind (snd kv)) (members d')
      end in
  match v with
  | PNone => HNone
  | PBool b => HBool b
  | PInt z => HInt z
  | PStr s => HStr s
  | PList l =>
      HList l ((fix elements (l : list pyval) : Forall P l :=
                  match l with
                  | [] => Forall_nil _
                  | x :: l' => Forall_cons x (pyval_ind x) (elements l')
                  end) l)
  | PDict d => HDict d (members d)
  | PMapping cls d => HMapping cls d (members d)
  | PObject cls d => HObject cls d (members d)
  end.
End PyvalInd.

(** ** Dictionaries *)

Module DictFacts.

Lemma dict_get_app {V : Type} (d1 d2 : list (string * V)) (k : string) :
  dict_get (d1 ++ d2)%list k =
  match dict_get d1 k with
  | Some v => Some v
  | None => dict_get d2 k
  end.
Proof.
  induction d1 as [|[k' v'] d1 IH]; simpl; [reflexivity|].
  destruct (String.eqb k' k); [reflexivity | exact IH].
Qed.

Lemma dict_set_fresh {V : Type} (d : list (string * V)) (k : string) (v : V) :
  dict_mem d k = false -> dict_set d k v = (d ++ [(k, v)])%list.
Proof.
  unfold dict_mem.
  induction d as [|[k' v'] d IH]; simpl; [reflexivity|].
  destruct (String.eqb k' k); [discriminate|].
  intros H. rewrite (IH H). reflexivity.
Qed.

Lemma keys_unique_app_cons {V : Type} (d1 d2 : list (string * V)) k v :
  keys_unique (d1 ++ (k, v) :: d2)%list = true ->
  dict_mem d1 k = false /\ keys_unique ((d1 ++ [(k, v)]) ++ d2)%list = true.
Proof.
  intros H. split.
  - induction d1 as [|[k1 v1] d1 IH]; simpl in *; [reflexivity|].
    apply andb_prop in H. destruct H as [H1 H2].
    unfold dict_mem in *. simpl.
    rewrite dict_get_app in H1. simpl in H1.
    destruct (String.eqb k1 k) eqn:E.
    + apply String.eqb_eq in E. subst k1.
      rewrite String.eqb_refl in H1.
      destruct (dict_get d1 k); discriminate.
    + apply IH. exact H2.
  - rewrite <- List.app_assoc. exact H.
Qed.

Lemma fold_dict_set_unique {V : Type} (d acc : list (string * V)) :
  keys_unique (acc ++ d)%list = true ->
  fold_left (fun a kv => dict_set a (fst kv) (snd kv)) d acc = (acc ++ d)%list.
Proof.
  revert acc. induction d as [|[k v] d IH]; intros acc H; simpl.
  - rewrite List.app_nil_r. reflexivity.
  - destruct (keys_unique_app_cons _ _ _ _ H) as [Hfresh Hu].
    rewrite (dict_set_fresh _ _ _ Hfresh).
    rewrite (IH _ Hu). rewrite <- List.app_assoc. reflexivity.
Qed.

(** Building a dictionary from pairs with distinct keys keeps the pairs. *)
Lemma dict_of_pairs_unique {V : Type} (d : list (string * V)) :
  keys_unique d = true -> dict_of_pairs d = d.
Proof.
  intros H. unfold dict_of_pairs.
  rewrite fold_dict_set_unique; [reflexivity | exact H].
Qed.

End DictFacts.

(** ** [json.loads] undoes [json.dumps] *)

Module JsonFacts.
Import Json.

Lemma Ok_inj {A : Type} (a b : A) : Ok a = Ok b -> a = b.
Proof. intros H. injection H as H. exact H. Qed.

Lemma append_assoc (a b c : string) : ((a ++ b) ++ c = a ++ (b ++ c))%string.
Proof.
  induction a as [|x a IH]; simpl; [reflexivity | rewrite IH; reflexivity].
Qed.

Lemma append_length (a b : string) :
  String.length (a ++ b) = String.length a + String.length b.
Proof.
  induction a as [|x a IH]; simpl; [reflexivity | rewrite IH; reflexivity].
Qed.

(** *** Strings *)

Lemma scanstring_escape_char (c : ascii) (t : string) :
  scanstring (escape_char c ++ t) =
  match scanstring t with
  | Some (r, rest) => Some (String c r, rest)
  | None => None
  end.
Proof.
  destruct c as [[] [] [] [] [] [] [] []]; reflexivity.
Qed.

Lemma scanstring_escape (s rest : string) :
  scanstring (escape s ++ String dquote rest) = Some (s, rest).
Proof.
  induction s as [|c s IH]; simpl.
  - reflexivity.
  - rewrite append_assoc, scanstring_escape_char, IH. reflexivity.
Qed.

Lemma escape_char_length (c : ascii) : 1 <= String.length (escape_char c).
Proof.
  destruct c as [[] [] [] [] [] [] [] []]; vm_compute; lia.
Qed.

(** *** Integers *)

Lemma scan_digits_string_of_uint (u : uint) (rest : string) :
  head_digit rest = false ->
  scan_digits (NilEmpty.string_of_uint u ++ rest) = (u, rest).
Proof.
  intros H. induction u; simpl; try (rewrite IHu; reflexivity).
  destruct rest as [|c rest]; simpl in *; [reflexivity|].
  destruct (digit_of c); [discriminate | reflexivity].
Qed.

Lemma nzhead_not_D0 (d d' : uint) : nzhead d <> D0 d'.
Proof.
  induction d; simpl; try discriminate. exact IHd.
Qed.

Lemma to_uint_not_D0 (p : positive) (d : uint) : Pos.to_uint p <> D0 d.
Proof.
  intros E.
  assert (Hn : unorm (Pos.to_uint p) = Pos.to_uint p).
  { rewrite <- (DecimalPos.Unsigned.to_of (Pos.to_uint p)).
    rewrite DecimalPos.Unsigned.of_to. reflexivity. }
  unfold unorm in Hn.
  destruct (nzhead (Pos.to_uint p)) eqn:Hz.
  - apply (DecimalPos.Unsigned.to_uint_nonzero p). symmetry. exact Hn.
  - rewrite E in Hn. inversion Hn. subst.
    exact (nzhead_not_D0 _ _ Hz).
  - rewrite E in Hn; discriminate.
  - rewrite E in Hn; discriminate.
  - rewrite E in Hn; discriminate.
  - rewrite E in Hn; discriminate.
  - rewrite E in Hn; discriminate.
  - rewrite E in Hn; discriminate.
  - rewrite E in Hn; discriminate.
  - rewrite E in Hn; discriminate.
  - rewrite E in Hn; discriminate.
Qed.

Lemma scan_number_not_minus (c : ascii) (s : string) :
  Ascii.eqb c "-" = false ->
  scan_number (String c s) =
  match scan_uint (String c s) with
  | Some (u, rest) =>
      if float_follows rest then None
      else Some (PInt (Z.of_int (Pos u)), rest)
  | None => None
  end.
Proof.
  destruct c as [[] [] [] [] [] [] [] []];
    intros H; try reflexivity; discriminate H.
Qed.

Lemma scan_uint_digits (u : uint) (rest : string) :
  u <> Nil -> (forall d, u <> D0 d) -> head_digit rest = false ->
  scan_uint (NilEmpty.string_of_uint u ++ rest) = Some (u, rest).
Proof.
  intros Hnil H0 H.
  destruct u as [|u|u|u|u|u|u|u|u|u|u];
    [congruence | exfalso; exact (H0 u eq_refl) | ..];
    unfold scan_uint; simpl;
    rewrite (scan_digits_string_of_uint u rest H); reflexivity.
Qed.

Lemma string_of_uint_head (u : uint) :
  u <> Nil -> (forall d, u <> D0 d) ->
  exists c t, NilEmpty.string_of_uint u = String c t
              /\ Ascii.eqb c "-" = false /\ digit_of c <> None.
Proof.
  intros Hnil H0.
  destruct u as [|u|u|u|u|u|u|u|u|u|u];
    [congruence | exfalso; exact (H0 u eq_refl) | ..];
    simpl; eexists; eexists; (split; [reflexivity | split; [reflexivity | discriminate]]).
Qed.

Lemma terminated_head_digit (rest : string) :
  terminated rest = true -> head_digit rest = false.
Proof.
  destruct rest as [|c rest]; simpl; [reflexivity|].
  destruct (digit_of c); [discriminate | reflexivity].
Qed.

Lemma terminated_float_follows (rest : string) :
  terminated rest = true -> float_follows rest = false.
Proof.
  destruct rest as [|c rest]; simpl; [reflexivity|].
  destruct (digit_of c); [discriminate|].
  intros H. apply negb_true_iff in H. exact H.
Qed.

Lemma scan_number_string_of_Z (z : Z) (rest : string) :
  terminated rest = true ->
  scan_number (string_of_Z z ++ rest) = Some (PInt z, rest).
Proof.
  intros H.
  pose proof (terminated_head_digit _ H) as Hd.
  pose proof (terminated_float_follows _ H) as Hf.
  rewrite <- (DecimalZ.of_to z) at 2.
  unfold string_of_Z.
  destruct z as [|p|p]; simpl Z.to_int; unfold NilZero.string_of_int.
  - simpl. rewrite Hf. reflexivity.
  - pose proof (DecimalPos.Unsigned.to_uint_nonnil p) as Hnil.
    pose proof (to_uint_not_D0 p) as H0.
    pose proof (scan_uint_digits _ rest Hnil H0 Hd) as Hs.
    destruct (string_of_uint_head _ Hnil H0) as (c & t & E & Hm & _).
    unfold NilZero.string_of_uint.
    destruct (Pos.to_uint p) eqn:Ep; try congruence;
      rewrite E in Hs |- *; simpl append in Hs |- *;
      rewrite (scan_number_not_minus _ _ Hm), Hs, Hf; reflexivity.
  - pose proof (DecimalPos.Unsigned.to_uint_nonnil p) as Hnil.
    pose proof (to_uint_not_D0 p) as H0.
    pose proof (scan_uint_digits _ rest Hnil H0 Hd) as Hs.
    unfold NilZero.string_of_uint.
    assert (Hm : forall x,
               scan_number (String "-" x ++ rest) =
               match scan_uint (x ++ rest) with
               | Some (u, r) =>
                   if float_follows r then None
                   else Some (PInt (Z.of_int (Neg u)), r)
               | None => None
               end) by reflexivity.
    destruct (Pos.to_uint p) eqn:Ep; try congruence;
      rewrite Hm, Hs, Hf; reflexivity.
Qed.

Lemma string_of_Z_head (z : Z) :
  exists c t, string_of_Z z = String c t
              /\ (c = "-"%char \/ digit_of c <> None).
Proof.
  unfold string_of_Z.
  destruct z as [|p|p]; simpl Z.to_int; unfold NilZero.string_of_int.
  - exists "0"%char, EmptyString. split; [reflexivity | right; discriminate].
  - pose proof (DecimalPos.Unsigned.to_uint_nonnil p) as Hnil.
    pose proof (to_uint_not_D0 p) as H0.
    destruct (string_of_uint_head _ Hnil H0) as (c & t & E & _ & Hc).
    exists c, t. split; [|right; exact Hc].
    unfold NilZero.string_of_uint.
    destruct (Pos.to_uint p); try congruence; exact E.
  - eexists; eexists. split; [reflexivity | left; reflexivity].
Qed.

(** *** The first character of the text of a value *)

Lemma skip_ws_value_head (c : ascii) (t : string) :
  value_head c = true -> skip_ws (String c t) = String c t.
Proof.
  destruct c as [[] [] [] [] [] [] [] []];
    intros H; try reflexivity; discriminate H.
Qed.

Lemma expect_value_head (c : ascii) (t : string) :
  value_head c = true ->
  expect "]" (String c t) = None /\ expect "}" (String c t) = None.
Proof.
  destruct c as [[] [] [] [] [] [] [] []];
    intros H; try (split; reflexivity); discriminate H.
Qed.

Lemma scan_once_number_head (f : nat) (c : ascii) (t : string) :
  number_head c = true ->
  scan_once (S f) (String c t) = scan_number (String c t).
Proof.
  destruct c as [[] [] [] [] [] [] [] []];
    intros H; try reflexivity; discriminate H.
Qed.

Lemma headed_app (a b : string) : headed a -> headed (a ++ b).
Proof.
  intros (c & t & -> & H). exists c, (t ++ b). split; [reflexivity | exact H].
Qed.

Lemma headed_concat (x : string) (ss : list string) :
  headed x -> headed (String.concat ", " (x :: ss)).
Proof.
  intros H. destruct ss as [|y ss]; [exact H|].
  change (headed (x ++ ", " ++ String.concat ", " (y :: ss))).
  apply headed_app. exact H.
Qed.

Lemma skip_ws_headed (s : string) : headed s -> skip_ws s = s.
Proof.
  intros (c & t & -> & H). apply skip_ws_value_head. exact H.
Qed.

Lemma expect_headed (s : string) :
  headed s -> expect "]" s = None /\ expect "}" s = None.
Proof.
  intros (c & t & -> & H). apply expect_value_head. exact H.
Qed.

Lemma headed_string_of_Z (z : Z) : headed (string_of_Z z).
Proof.
  destruct (string_of_Z_head z) as (c & t & E & H).
  exists c, t. split; [exact E|].
  unfold value_head, number_head.
  destruct H as [-> | H]; [reflexivity|].
  destruct (digit_of c); [|congruence].
  rewrite orb_true_r. reflexivity.
Qed.

Lemma dumps_headed (v : pyval) (text : string) :
  dumps v = Ok text -> headed text.
Proof.
  destruct v as [|[]|z|s|l|d|cls d|cls d]; simpl; intros H;
    try discriminate H.
  - inversion H. eexists; eexists; split; reflexivity.
  - inversion H. eexists; eexists; split; reflexivity.
  - inversion H. eexists; eexists; split; reflexivity.
  - inversion H. apply headed_string_of_Z.
  - inversion H. eexists; eexists; split; reflexivity.
  - destruct (mapM dumps l); inversion H.
    eexists; eexists; split; reflexivity.
  - destruct (mapM _ d); inversion H.
    eexists; eexists; split; reflexivity.
Qed.

(** *** Unfolding the scanner by one step *)

Lemma scan_once_array (f : nat) (r : string) :
  scan_once (S f) (String "[" r) =
  match expect "]" (skip_ws r) with
  | Some rest => Some (PList [], rest)
  | None =>
      match scan_elements f (skip_ws r) with
      | Some (vs, rest) => Some (PList vs, rest)
      | None => None
      end
  end.
Proof. reflexivity. Qed.

Lemma scan_once_object (f : nat) (r : string) :
  scan_once (S f) (String "{" r) =
  match expect "}" (skip_ws r) with
  | Some rest => Some (PDict [], rest)
  | None =>
      match scan_members f (skip_ws r) with
      | Some (ps, rest) => Some (PDict (dict_of_pairs ps), rest)
      | None => None
      end
  end.
Proof. reflexivity. Qed.

Lemma scan_elements_step (f : nat) (s : string) :
  scan_elements (S f) s =
  match scan_once f s with
  | Some (v, r) =>
      match expect "," (skip_ws r) with
      | Some r' =>
          match scan_elements f (skip_ws r') with
          | Some (vs, rest) => Some (v :: vs, rest)
          | None => None
          end
      | None =>
          match expect "]" (skip_ws r) with
          | Some rest => Some ([v], rest)
          | None => None
          end
      end
  | None => None
  end.
Proof. reflexivity. Qed.

Lemma scan_members_step (f : nat) (s : string) :
  scan_members (S f) (String dquote s) =
  match scanstring s with
  | Some (k, r1) =>
      match expect ":" (skip_ws r1) with
      | Some r2 =>
          match scan_once f (skip_ws r2) with
          | Some (v, r3) =>
              match expect "," (skip_ws r3) with
              | Some r4 =>
                  match scan_members f (skip_ws r4) with
                  | Some (ps, rest) => Some ((k, v) :: ps, rest)
                  | None => None
                  end
              | None =>
                  match expect "}" (skip_ws r3) with
                  | Some rest => Some ([(k, v)], rest)
                  | None => None
                  end
              end
          | None => None
          end
      | None => None
      end
  | None => None
  end.
Proof. reflexivity. Qed.

(** *** Values *)

Lemma scan_elements_dumps (l : list pyval) :
  Forall scans_back l ->
  forallb well_formed l = true ->
  forall ss, mapM dumps l = Ok ss -> l <> [] ->
  forall rest fuel,
    list_sum (map (fun x => S (size x)) l) <= fuel ->
    scan_elements fuel (String.concat ", " ss ++ String "]" rest)
    = Some (l, rest).
Proof.
  induction 1 as [|x l Hx Hl IH]; intros Hwf ss Hss Hne rest fuel Hfuel;
    [congruence|].
  simpl in Hwf. apply andb_prop in Hwf. destruct Hwf as [Hwx Hwl].
  simpl in Hss.
  destruct (dumps x) as [sx|] eqn:Ex; [|discriminate].
  destruct (mapM dumps l) as [ss'|] eqn:El; [|discriminate].
  inversion Hss; subst ss; clear Hss.
  simpl in Hfuel.
  destruct fuel as [|f]; [lia|].
  rewrite scan_elements_step.
  destruct l as [|y l'].
  - simpl in El. inversion El; subst ss'. simpl String.concat.
    simpl in Hfuel.
    rewrite (Hx Hwx sx Ex (String "]" rest) f eq_refl) by lia.
    reflexivity.
  - simpl in El.
    destruct (dumps y) as [sy|] eqn:Ey; [|discriminate].
    destruct (mapM dumps l') as [ss''|] eqn:El'; [|discriminate].
    inversion El; subst ss'; clear El.
    change (String.concat ", " (sx :: sy :: ss''))
      with (sx ++ ", " ++ String.concat ", " (sy :: ss'')).
    rewrite !append_assoc.
    simpl in Hfuel.
    rewrite (Hx Hwx sx Ex
               (", " ++ String.concat ", " (sy :: ss'') ++ String "]" rest)
               f eq_refl) by lia.
    change (skip_ws (", " ++ ?t)) with (String "," (String " " t)).
    change (expect "," (String "," ?t)) with (Some t).
    assert (Hh : headed (String.concat ", " (sy :: ss'') ++ String "]" rest)).
    { apply headed_app, headed_concat. exact (dumps_headed _ _ Ey). }
    cbv beta iota.
    change (skip_ws (String " " ?t)) with (skip_ws t).
    rewrite (skip_ws_headed _ Hh).
    rewrite (IH Hwl (sy :: ss'')); [reflexivity | | discriminate | simpl; lia].
    reflexivity.
Qed.

Lemma member_text_app (k sx tail : string) :
  (encode_basestring_ascii k ++ ": " ++ sx) ++ tail
  = String dquote
      (escape k ++ String dquote (String ":" (String " " (sx ++ tail)))).
Proof.
  unfold encode_basestring_ascii. simpl.
  rewrite !append_assoc. reflexivity.
Qed.

Lemma headed_member_text (k sx : string) :
  headed (encode_basestring_ascii k ++ ": " ++ sx).
Proof.
  eexists; eexists. split; reflexivity.
Qed.

Lemma scan_members_dumps (d : list (string * pyval)) :
  Forall (fun kv => scans_back (snd kv)) d ->
  forallb (fun kv => well_formed (snd kv)) d = true ->
  forall ss, mapM dumps_member d = Ok ss -> d <> [] ->
  forall rest fuel,
    list_sum (map (fun kv => S (size (snd kv))) d) <= fuel ->
    scan_members fuel (String.concat ", " ss ++ String "}" rest)
    = Some (d, rest).
Proof.
  induction 1 as [|[k x] d Hx Hd IH]; intros Hwf ss Hss Hne rest fuel Hfuel;
    [congruence|].
  simpl in Hwf. apply andb_prop in Hwf. destruct Hwf as [Hwx Hwd].
  simpl in Hx. cbn [mapM dumps_member] in Hss.
  destruct (dumps x) as [sx|] eqn:Ex; [|discriminate]. cbn [bind] in Hss.
  destruct (mapM dumps_member d) as [ss'|] eqn:Ed; [|discriminate].
  apply Ok_inj in Hss. subst ss.
  simpl in Hfuel.
  destruct fuel as [|f]; [lia|].
  destruct d as [|[k' y] d'].
  - simpl in Ed. apply Ok_inj in Ed. subst ss'.
    change (String.concat ", " [encode_basestring_ascii k ++ ": " ++ sx])
      with (encode_basestring_ascii k ++ ": " ++ sx).
    rewrite member_text_app, scan_members_step, scanstring_escape.
    change (skip_ws (String ":" ?t)) with (String ":" t).
    change (expect ":" (String ":" ?t)) with (Some t).
    cbv beta iota.
    change (skip_ws (String " " ?t)) with (skip_ws t).
    rewrite (skip_ws_headed _ (headed_app _ _ (dumps_headed _ _ Ex))).
    simpl in Hfuel.
    rewrite (Hx Hwx sx Ex (String "}" rest) f eq_refl) by lia.
    reflexivity.
  - cbn [mapM dumps_member] in Ed.
    destruct (dumps y) as [sy|] eqn:Ey; [|discriminate]. cbn [bind] in Ed.
    destruct (mapM dumps_member d') as [ss''|] eqn:Ed'; [|discriminate].
    apply Ok_inj in Ed. subst ss'.
    set (my := encode_basestring_ascii k' ++ ": " ++ sy) in *.
    change (String.concat ", "
              ((encode_basestring_ascii k ++ ": " ++ sx) :: my :: ss''))
      with ((encode_basestring_ascii k ++ ": " ++ sx)
            ++ ", " ++ String.concat ", " (my :: ss'')).
    rewrite (append_assoc (encode_basestring_ascii k ++ ": " ++ sx)).
    rewrite member_text_app, scan_members_step, scanstring_escape.
    change (skip_ws (String ":" ?t)) with (String ":" t).
    change (expect ":" (String ":" ?t)) with (Some t).
    cbv beta iota.
    change (skip_ws (String " " ?t)) with (skip_ws t).
    rewrite (skip_ws_headed _ (headed_app _ _ (dumps_headed _ _ Ex))).
    rewrite !append_assoc.
    simpl in Hfuel.
    rewrite (Hx Hwx sx Ex
               (", " ++ String.concat ", " (my :: ss'') ++ String "}" rest)
               f eq_refl) by lia.
    change (skip_ws (", " ++ ?t)) with (String "," (String " " t)).
    change (expect "," (String "," ?t)) with (Some t).
    cbv beta iota.
    assert (Hh : headed (String.concat ", " (my :: ss'') ++ String "}" rest)).
    { apply headed_app, headed_concat, headed_member_text. }
    change (skip_ws (String " " ?t)) with (skip_ws t).
    rewrite (skip_ws_headed _ Hh).
    rewrite (IH Hwd (my :: ss'')); [reflexivity | | discriminate | simpl; lia].
    reflexivity.
Qed.

Lemma scan_once_dumps (v : pyval) : scans_back v.
Proof.
  induction v as [|b|z|s|l IH|d IH|cls d IH|cls d IH] using pyval_ind;
    intros Hwf text Ht rest fuel Hrest Hfuel; simpl in Ht;
    try discriminate Ht.
  - inversion Ht; subst text. destruct fuel; [simpl in Hfuel; lia|].
    reflexivity.
  - destruct fuel; [simpl in Hfuel; lia|].
    destruct b; inversion Ht; subst text; reflexivity.
  - inversion Ht; subst text. destruct fuel; [simpl in Hfuel; lia|].
    destruct (headed_string_of_Z z) as (c & t & E & Hc).
    pose proof (scan_number_string_of_Z z rest Hrest) as Hn.
    destruct (string_of_Z_head z) as (c' & t' & E' & Hc').
    rewrite E' in Hn |- *. simpl append in Hn |- *.
    rewrite scan_once_number_head; [exact Hn|].
    unfold number_head. destruct Hc' as [-> | Hc']; [reflexivity|].
    destruct (digit_of c'); [apply orb_true_r | congruence].
  - inversion Ht; subst text. destruct fuel; [simpl in Hfuel; lia|].
    unfold encode_basestring_ascii. simpl append.
    rewrite append_assoc. simpl append.
    change (scan_once (S fuel) (String dquote ?t))
      with (match scanstring t with
            | Some (str, r) => Some (PStr str, r)
            | None => None
            end).
    rewrite scanstring_escape. reflexivity.
  - destruct (mapM dumps l) as [ss|] eqn:El; [|discriminate].
    inversion Ht; subst text; clear Ht.
    simpl in Hwf, Hfuel. destruct fuel as [|f]; [lia|].
    simpl append. rewrite append_assoc. simpl append.
    rewrite scan_once_array.
    destruct l as [|x l'].
    + simpl in El. inversion El; subst ss. reflexivity.
    + assert (Hh : headed (String.concat ", " ss ++ String "]" rest)).
      { apply headed_app. simpl in El.
        destruct (dumps x) as [sx|] eqn:Ex; [|discriminate].
        destruct (mapM dumps l') as [ss'|]; [|discriminate].
        apply Ok_inj in El. subst ss.
        apply headed_concat. exact (dumps_headed _ _ Ex). }
      rewrite (skip_ws_headed _ Hh).
      rewrite (proj1 (expect_headed _ Hh)).
      rewrite (scan_elements_dumps _ IH Hwf ss El); [reflexivity | discriminate | lia].
  - change (mapM _ d) with (mapM dumps_member d) in Ht.
    destruct (mapM dumps_member d) as [ss|] eqn:Ed; [|discriminate].
    inversion Ht; subst text; clear Ht.
    simpl in Hwf, Hfuel. apply andb_prop in Hwf. destruct Hwf as [Hu Hwf].
    destruct fuel as [|f]; [lia|].
    simpl append. rewrite append_assoc. simpl append.
    rewrite scan_once_object.
    destruct d as [|[k x] d'].
    + simpl in Ed. inversion Ed; subst ss. reflexivity.
    + assert (Hh : headed (String.concat ", " ss ++ String "}" rest)).
      { apply headed_app. cbn [mapM dumps_member] in Ed.
        destruct (dumps x) as [sx|] eqn:Ex; [|discriminate]. cbn [bind] in Ed.
        destruct (mapM dumps_member d') as [ss'|]; [|discriminate].
        apply Ok_inj in Ed. subst ss.
        apply headed_concat, headed_member_text. }
      rewrite (skip_ws_headed _ Hh).
      rewrite (proj2 (expect_headed _ Hh)).
      rewrite (scan_members_dumps _ IH Hwf ss Ed); [| discriminate | lia].
      rewrite (DictFacts.dict_of_pairs_unique _ Hu). reflexivity.
Qed.

(** *** The text is long enough to be the fuel *)

Lemma headed_length (s : string) : headed s -> 1 <= String.length s.
Proof.
  intros (c & t & -> & _). simpl. lia.
Qed.

Lemma concat_length_cons (x : string) (ss : list string) :
  String.length x <= String.length (String.concat ", " (x :: ss)).
Proof.
  destruct ss as [|y ss]; [simpl; lia|].
  change (String.concat ", " (x :: y :: ss))
    with (x ++ ", " ++ String.concat ", " (y :: ss)).
  rewrite append_length. lia.
Qed.

Lemma concat_length_cons2 (x y : string) (ss : list string) :
  String.length (String.concat ", " (x :: y :: ss))
  = String.length x + 2 + String.length (String.concat ", " (y :: ss)).
Proof.
  change (String.concat ", " (x :: y :: ss))
    with (x ++ ", " ++ String.concat ", " (y :: ss)).
  rewrite !append_length. simpl. lia.
Qed.

Lemma elements_short (l : list pyval) :
  Forall short l ->
  forall ss, mapM dumps l = Ok ss ->
  list_sum (map (fun x => S (size x)) l)
  <= S (String.length (String.concat ", " ss)).
Proof.
  induction 1 as [|x l Hx Hl IH]; intros ss Hss; [simpl; lia|].
  simpl in Hss.
  destruct (dumps x) as [sx|] eqn:Ex; [|discriminate].
  destruct (mapM dumps l) as [ss'|] eqn:El; [|discriminate].
  apply Ok_inj in Hss. subst ss.
  specialize (Hx sx Ex). specialize (IH ss' eq_refl).
  destruct l as [|y l'].
  - simpl in El. apply Ok_inj in El. subst ss'. simpl. lia.
  - simpl in El.
    destruct (dumps y) as [sy|]; [|discriminate].
    destruct (mapM dumps l') as [ss''|]; [|discriminate].
    apply Ok_inj in El. subst ss'.
    rewrite concat_length_cons2.
    change (list_sum (map (fun x => S (size x)) (x :: y :: l')))
      with (S (size x) + list_sum (map (fun x => S (size x)) (y :: l'))).
    lia.
Qed.

Lemma member_text_length (k sx : string) :
  String.length (encode_basestring_ascii k ++ ": " ++ sx)
  = String.length (escape k) + 4 + String.length sx.
Proof.
  unfold encode_basestring_ascii. simpl.
  rewrite !append_length. simpl. lia.
Qed.

Lemma members_short (d : list (string * pyval)) :
  Forall (fun kv => short (snd kv)) d ->
  forall ss, mapM dumps_member d = Ok ss ->
  list_sum (map (fun kv => S (size (snd kv))) d)
  <= S (String.length (String.concat ", " ss)).
Proof.
  induction 1 as [|[k x] d Hx Hd IH]; intros ss Hss; [simpl; lia|].
  cbn [mapM dumps_member] in Hss. simpl in Hx.
  destruct (dumps x) as [sx|] eqn:Ex; [|discriminate]. cbn [bind] in Hss.
  destruct (mapM dumps_member d) as [ss'|] eqn:Ed; [|discriminate].
  apply Ok_inj in Hss. subst ss.
  specialize (Hx sx Ex). specialize (IH ss' eq_refl).
  pose proof (member_text_length k sx) as Hm.
  destruct d as [|[k' y] d'].
  - simpl in Ed. apply Ok_inj in Ed. subst ss'.
    change (String.concat ", " [encode_basestring_ascii k ++ ": " ++ sx])
      with (encode_basestring_ascii k ++ ": " ++ sx).
    simpl list_sum. simpl snd. lia.
  - cbn [mapM dumps_member] in Ed.
    destruct (dumps y) as [sy|]; [|discriminate]. cbn [bind] in Ed.
    destruct (mapM dumps_member d') as [ss''|]; [|discriminate].
    apply Ok_inj in Ed. subst ss'.
    rewrite concat_length_cons2.
    change (list_sum (map (fun kv => S (size (snd kv))) ((k, x) :: (k', y) :: d')))
      with (S (size x)
            + list_sum (map (fun kv => S (size (snd kv))) ((k', y) :: d'))).
    lia.
Qed.

Lemma dumps_short (v : pyval) : short v.
Proof.
  induction v as [|b|z|s|l IH|d IH|cls d IH|cls d IH] using pyval_ind;
    intros text Ht; simpl in Ht; try discriminate Ht.
  - apply Ok_inj in Ht. subst text. simpl. lia.
  - destruct b; apply Ok_inj in Ht; subst text; simpl; lia.
  - apply Ok_inj in Ht. subst text.
    exact (headed_length _ (headed_string_of_Z z)).
  - apply Ok_inj in Ht. subst text. simpl. lia.
  - destruct (mapM dumps l) as [ss|] eqn:El; [|discriminate].
    apply Ok_inj in Ht. subst text.
    pose proof (elements_short l IH ss El) as H.
    change (size (PList l)) with (S (list_sum (map (fun x => S (size x)) l))).
    simpl String.length. rewrite append_length. simpl String.length. lia.
  - change (mapM _ d) with (mapM dumps_member d) in Ht.
    destruct (mapM dumps_member d) as [ss|] eqn:Ed; [|discriminate].
    apply Ok_inj in Ht. subst text.
    pose proof (members_short d IH ss Ed) as H.
    change (size (PDict d))
      with (S (list_sum (map (fun kv => S (size (snd kv))) d))).
    simpl String.length. rewrite append_length. simpl String.length. lia.
Qed.

Lemma append_empty (s : string) : (s ++ "")%string = s.
Proof.
  induction s as [|c s IH]; simpl; [reflexivity | rewrite IH; reflexivity].
Qed.

(** [json.loads(json.dumps(v)) == v] for a well-formed value that
    [json.dumps] accepts. *)
Theorem loads_dumps (v : pyval) (text : string) :
  well_formed v = true -> dumps v = Ok text -> loads text = Ok v.
Proof.
  intros Hwf Ht. unfold loads.
  rewrite (skip_ws_headed _ (dumps_headed _ _ Ht)).
  pose proof (scan_once_dumps v Hwf text Ht "" (S (String.length text))
                eq_refl) as H.
  rewrite append_empty in H. rewrite H.
  - reflexivity.
  - pose proof (dumps_short v text Ht). lia.
Qed.

(** [json.dumps] raises exactly on the values that hold an object. *)
Lemma dumps_returns (v : pyval) : returned (dumps v) = serializable v.
Proof.
  induction v as [|b|z|s|l IH|d IH|cls d IH|cls d IH] using pyval_ind;
    simpl; try reflexivity.
  - destruct b; reflexivity.
  - induction IH as [|x l Hx Hl IHl]; [reflexivity|].
    simpl. rewrite <- Hx.
    destruct (dumps x); simpl; [|reflexivity].
    destruct (mapM dumps l), (forallb serializable l);
      simpl in *; congruence.
  - induction IH as [|[k x] d Hx Hd IHd]; [reflexivity|].
    simpl in *. rewrite <- Hx.
    destruct (dumps x); simpl; [|reflexivity].
    destruct (mapM _ d), (forallb _ d); simpl in *; congruence.
Qed.

Lemma dumps_serializable (v : pyval) :
  serializable v = true -> exists text, dumps v = Ok text.
Proof.
  intros H. rewrite <- dumps_returns in H.
  destruct (dumps v) as [text|]; [exists text; reflexivity | discriminate].
Qed.

End JsonFacts.

(** ** The adapter *)

Module GeminiFacts.
Import Gemini.

Ltac break_match :=
  match goal with
  | H : context [match ?x with _ => _ end] |- _ => destruct x eqn:?
  | |- context [match ?x with _ => _ end] => destruct x eqn:?
  end.

(** *** [create], phase by phase *)

Lemma create_request_raises model kw w e :
  build_request kw = Raise e -> create model kw w = (Raise e, w).
Proof.
  intros H. unfold create, mbind, lift. rewrite H. reflexivity.
Qed.

Lemma create_backend_raises model kw w h t e :
  build_request kw = Ok (h, t) ->
  generate_content model h t = Raise e ->
  create model kw w = (Raise e, called w h t).
Proof.
  intros H1 H2. unfold create, mbind, lift, call_generate_content.
  rewrite H1, H2. reflexivity.
Qed.

Lemma create_reply model kw w h t resp :
  build_request kw = Ok (h, t) ->
  generate_content model h t = Ok resp ->
  create model kw w = translate_response resp (called w h t).
Proof.
  intros H1 H2. unfold create, mbind, lift, call_generate_content.
  rewrite H1, H2. reflexivity.
Qed.

(** What [translate_response] does in the function-call branch. *)
Lemma translate_function_call resp cand cands fc fcs w :
  candidates resp = cand :: cands ->
  function_calls cand = fc :: fcs ->
  translate_response resp w =
  match arguments_of fc with
  | Ok arguments =>
      (Ok (envelope
             [("function_call",
               PDict [("name", PStr (fc_name fc));
                      ("arguments", PStr arguments)]);
              ("tool_calls",
               PList [PDict [("id", PStr (uuid_source w (uuid_drawn w)));
                             ("function",
                              PDict [("name", PStr (fc_name fc));
                                     ("arguments", PStr arguments)]);
                             ("type", PStr "function")]]);
              ("role", PStr "assistant");
              ("content", PStr "");
              ("sender", PStr "assistant")]), drawn w)
  | Raise e => (Raise e, drawn w)
  end.
Proof.
  intros Hc Hf. unfold translate_response, arguments_of.
  rewrite Hc, Hf.
  unfold mbind, _create_tool_call, uuid4, lift, ret,
    _create_function_structure, bind.
  destruct (_serialize_function_call fc) as [ser|e]; [|reflexivity].
  destruct (Json.dumps ser) as [a|e]; reflexivity.
Qed.

Lemma translate_plain resp cand cands w :
  candidates resp = cand :: cands ->
  function_calls cand = [] ->
  translate_response resp w =
  (Ok (envelope [("content", PStr (content_text cand));
                 ("tool_calls", PNone);
                 ("role", PStr "assistant");
                 ("sender", PStr "assistant")]), w).
Proof.
  intros Hc Hf. unfold translate_response. rewrite Hc, Hf. reflexivity.
Qed.

Lemma translate_blocked resp w :
  candidates resp = [] ->
  translate_response resp w =
  (Ok (envelope [("content", PStr blocked_message);
                 ("tool_calls", PNone);
                 ("role", PStr "assistant");
                 ("sender", PStr "assistant")]),
   printed w "DEBUG: Response blocked by safety filters. No candidates were returned.").
Proof.
  intros Hc. unfold translate_response. rewrite Hc. reflexivity.
Qed.

Lemma translate_keeps_sent resp w :
  sent (snd (translate_response resp w)) = sent w.
Proof.
  destruct (candidates resp) as [|cand cands] eqn:Hc.
  - rewrite (translate_blocked _ _ Hc). reflexivity.
  - destruct (function_calls cand) as [|fc fcs] eqn:Hf.
    + rewrite (translate_plain _ _ _ _ Hc Hf). reflexivity.
    + rewrite (translate_function_call _ _ _ _ _ _ Hc Hf).
      destruct (arguments_of fc); reflexivity.
Qed.

(** *** The blocked response *)

(** C2.  When the backend replies with no candidate, [create] raises
    nothing: it returns the envelope whose message has the fixed
    blocked-response text as its content and [None] for its tool calls.
    The only effects are the request and the debugging line. *)
Theorem create_blocked_response model kw w h t resp :
  build_request kw = Ok (h, t) ->
  generate_content model h t = Ok resp ->
  candidates resp = [] ->
  exists message,
    create model kw w
    = (Ok (envelope message),
       printed (called w h t)
         "DEBUG: Response blocked by safety filters. No candidates were returned.")
    /\ dict_get message "content"
       = Some (PStr "The response was blocked by safety filters and no candidates were returned.")
    /\ dict_get message "tool_calls" = Some PNone
    /\ __getattr__ (DotDict message) "tool_calls" = Ok PNone.
Proof.
  intros Hb Hg Hc.
  rewrite (create_reply _ _ _ _ _ _ Hb Hg), (translate_blocked _ _ Hc).
  eexists. split; [reflexivity|]. repeat split; reflexivity.
Qed.

Lemma create_blocked_response_witness :
  exists message,
    create (Samples.replying Samples.blocked_reply) Samples.conversation
      Samples.world0
    = (Ok (envelope message),
       printed (called Samples.world0
                  [ {| role := PStr "user";
                       parts := [from_text (PStr "What is the weather in Paris?")] |};
                    {| role := PStr "model";
                       parts := [from_text (PStr "Let me look.")] |} ]
                  [ {| function_declarations :=
                         [ {| name := PStr "get_weather";
                              description :=
                                PStr "Get the current weather in a given location.";
                              parameters :=
                                PDict
                                  [("type", PStr "object");
                                   ("properties",
                                    PDict
                                      [("location",
                                        PDict [("type", PStr "string");
                                               ("description", PStr "")]);
                                       ("time",
                                        PDict [("type", PStr "string");
                                               ("description", PStr "")])]);
                                   ("required", PList [PStr "location"])] |} ] |} ])
         "DEBUG: Response blocked by safety filters. No candidates were returned.")
    /\ dict_get message "content"
       = Some (PStr "The response was blocked by safety filters and no candidates were returned.")
    /\ dict_get message "tool_calls" = Some PNone
    /\ __getattr__ (DotDict message) "tool_calls" = Ok PNone.
Proof.
  apply (create_blocked_response (Samples.replying Samples.blocked_reply)
           Samples.conversation Samples.world0 _ _ Samples.blocked_reply);
    reflexivity.
Defined.

(** *** The function call *)

Lemma unwrap_serializable (v : pyval) :
  serializable v = true -> getattr_default v "string_value" v = v.
Proof.
  destruct v; simpl; try reflexivity. discriminate.
Qed.

Lemma map_unwrap_serializable (kvs : pydict) :
  forallb (fun kv => serializable (snd kv)) kvs = true ->
  map (fun kv : string * pyval =>
         let '(key, value) := kv in
         (key, getattr_default value "string_value" value)) kvs = kvs.
Proof.
  induction kvs as [|[k v] kvs IH]; simpl; [reflexivity|].
  intros H. apply andb_prop in H. destruct H as [Hv Hr].
  rewrite (IH Hr).
  change (getattr_default v "string_value" v)
    with (getattr_default v "string_value" v).
  rewrite (unwrap_serializable v Hv). reflexivity.
Qed.

Lemma json_value_dict (kvs : pydict) :
  json_value (PDict kvs) = true ->
  forallb (fun kv => serializable (snd kv)) kvs = true
  /\ keys_unique kvs = true
  /\ well_formed (PDict kvs) = true.
Proof.
  unfold json_value. intros H. apply andb_prop in H. destruct H as [Hs Hw].
  repeat split; [exact Hs | | exact Hw].
  simpl in Hw. apply andb_prop in Hw. exact (proj1 Hw).
Qed.

(** With JSON values for arguments, both branches of
    [_serialize_function_call] give the dictionary of the arguments. *)
Lemma serialize_json_args (fc : FunctionCall) (kvs : pydict) :
  items (args fc) = Ok kvs ->
  json_value (PDict kvs) = true ->
  _serialize_function_call fc = Ok (PDict kvs).
Proof.
  intros Hi Hj. destruct (json_value_dict _ Hj) as (Hs & Hu & _).
  unfold _serialize_function_call.
  destruct (args fc) as [| | | | |d|cls d|cls d]; simpl in *;
    try discriminate Hi; apply JsonFacts.Ok_inj in Hi; subst d.
  - reflexivity.
  - rewrite (map_unwrap_serializable _ Hs).
    rewrite (DictFacts.dict_of_pairs_unique _ Hu). reflexivity.
Qed.

Lemma arguments_of_json_args (fc : FunctionCall) (kvs : pydict) :
  items (args fc) = Ok kvs ->
  json_value (PDict kvs) = true ->
  exists arguments,
    arguments_of fc = Ok arguments /\ Json.loads arguments = Ok (PDict kvs).
Proof.
  intros Hi Hj. unfold arguments_of.
  rewrite (serialize_json_args _ _ Hi Hj). cbn [bind].
  pose proof Hj as Hj'. unfold json_value in Hj'.
  apply andb_prop in Hj'. destruct Hj' as [Hs Hw].
  destruct (JsonFacts.dumps_serializable _ Hs) as [text Ht].
  exists text. split; [exact Ht|].
  exact (JsonFacts.loads_dumps _ _ Hw Ht).
Qed.

(** C1, amended.  When the first candidate of the reply carries a function
    call whose arguments are a dictionary, or a mapping object, with
    distinct keys and JSON values, [create] returns the envelope whose
    message holds exactly one tool call.  The tool call carries the
    identifier drawn from the UUID generator at this call, and the name and
    the serialised arguments of the first function call; the
    [function_call] field holds the same name and the same arguments
    string; decoding the arguments string gives back the arguments of the
    backend.  The generator has advanced by one, so that, its draws being
    distinct, no other draw gives this identifier. *)
Theorem create_function_call model kw w h t resp cand cands fc fcs kvs :
  build_request kw = Ok (h, t) ->
  generate_content model h t = Ok resp ->
  candidates resp = cand :: cands ->
  function_calls cand = fc :: fcs ->
  items (args fc) = Ok kvs ->
  json_value (PDict kvs) = true ->
  exists arguments,
    let id := uuid_source w (uuid_drawn w) in
    let function :=
      PDict [("name", PStr (fc_name fc)); ("arguments", PStr arguments)] in
    create model kw w
    = (Ok (envelope
             [("function_call", function);
              ("tool_calls",
               PList [PDict [("id", PStr id);
                             ("function", function);
                             ("type", PStr "function")]]);
              ("role", PStr "assistant");
              ("content", PStr "");
              ("sender", PStr "assistant")]),
       drawn (called w h t))
    /\ Json.loads arguments = Ok (PDict kvs)
    /\ ((forall i j, uuid_source w i = uuid_source w j -> i = j) ->
        forall n, n <> uuid_drawn w -> uuid_source w n <> id).
Proof.
  intros Hb Hg Hc Hf Hi Hj.
  destruct (arguments_of_json_args _ _ Hi Hj) as (arguments & Ha & Hl).
  exists arguments. cbv zeta.
  rewrite (create_reply _ _ _ _ _ _ Hb Hg).
  rewrite (translate_function_call _ _ _ _ _ _ Hc Hf), Ha.
  split; [reflexivity | split; [exact Hl|]].
  intros Hinj n Hn E. apply Hn. exact (Hinj _ _ E).
Qed.

Lemma create_function_call_witness :
  exists arguments,
    Json.loads arguments = Ok (PDict [("location", PStr "Paris")])
    /\ fst (create (Samples.replying Samples.call_reply) Samples.conversation
              Samples.world0)
       = Ok (envelope
               [("function_call",
                 PDict [("name", PStr "get_weather");
                        ("arguments", PStr arguments)]);
                ("tool_calls",
                 PList [PDict [("id", PStr "call-0");
                               ("function",
                                PDict [("name", PStr "get_weather");
                                       ("arguments", PStr arguments)]);
                               ("type", PStr "function")]]);
                ("role", PStr "assistant");
                ("content", PStr "");
                ("sender", PStr "assistant")]).
Proof.
  destruct (create_function_call (Samples.replying Samples.call_reply)
              Samples.conversation Samples.world0 _ _ Samples.call_reply
              _ _ Samples.weather_call _ [("location", PStr "Paris")]
              eq_refl eq_refl eq_refl eq_refl eq_refl eq_refl)
    as (arguments & Hc & Hl & _).
  exists arguments. split; [exact Hl|].
  cbv zeta in Hc. rewrite Hc. reflexivity.
Defined.

(** C1 as the specification states it, for every function call, fails: a
    function call whose argument is a container object of the SDK makes
    [create] raise, after the identifier was drawn, and no envelope is
    returned. *)
Lemma create_function_call_unserializable :
  (exists cand cands fc fcs,
      candidates Samples.cities_reply = cand :: cands
      /\ function_calls cand = fc :: fcs)
  /\ fst (create (Samples.replying Samples.cities_reply) Samples.conversation
            Samples.world0)
     = Raise (TypeError
                "Object of type RepeatedComposite is not JSON serializable").
Proof.
  split; [|reflexivity].
  eexists; eexists; eexists; eexists. split; reflexivity.
Qed.

(** Two calls in a row that both meet a function call give different
    identifiers, when the draws of the generator are distinct. *)
Lemma successive_identifiers_differ resp1 resp2 c1 cs1 f1 fs1 c2 cs2 f2 fs2 w :
  candidates resp1 = c1 :: cs1 -> function_calls c1 = f1 :: fs1 ->
  candidates resp2 = c2 :: cs2 -> function_calls c2 = f2 :: fs2 ->
  (forall i j, uuid_source w i = uuid_source w j -> i = j) ->
  let w1 := snd (translate_response resp1 w) in
  uuid_source w1 (uuid_drawn w1) <> uuid_source w (uuid_drawn w).
Proof.
  intros H1 H2 H3 H4 Hinj w1. subst w1.
  rewrite (translate_function_call _ _ _ _ _ _ H1 H2).
  destruct (arguments_of f1); simpl; intros E; apply Hinj in E; lia.
Qed.

(** *** The shape of the envelope *)

(** Whatever the reply, [create] either returns an envelope of one choice
    around a message, or raises because the arguments of a function call
    could not be serialised. *)
Lemma create_cases model kw w h t resp :
  build_request kw = Ok (h, t) ->
  generate_content model h t = Ok resp ->
  (candidates resp = []
   /\ fst (create model kw w)
      = Ok (envelope [("content", PStr blocked_message);
                      ("tool_calls", PNone);
                      ("role", PStr "assistant");
                      ("sender", PStr "assistant")]))
  \/ (exists cand cands,
         candidates resp = cand :: cands /\ function_calls cand = []
         /\ fst (create model kw w)
            = Ok (envelope [("content", PStr (content_text cand));
                            ("tool_calls", PNone);
                            ("role", PStr "assistant");
                            ("sender", PStr "assistant")]))
  \/ (exists cand cands fc fcs,
         candidates resp = cand :: cands /\ function_calls cand = fc :: fcs
         /\ ((exists e, arguments_of fc = Raise e
                        /\ fst (create model kw w) = Raise e)
             \/ (exists arguments tool_call,
                    arguments_of fc = Ok arguments
                    /\ fst (create model kw w)
                       = Ok (envelope
                               [("function_call",
                                 PDict [("name", PStr (fc_name fc));
                                        ("arguments", PStr arguments)]);
                                ("tool_calls", PList [tool_call]);
                                ("role", PStr "assistant");
                                ("content", PStr "");
                                ("sender", PStr "assistant")])))).
Proof.
  intros Hb Hg. rewrite (create_reply _ _ _ _ _ _ Hb Hg).
  destruct (candidates resp) as [|cand cands] eqn:Hc.
  - left. rewrite (translate_blocked _ _ Hc). split; reflexivity.
  - right. destruct (function_calls cand) as [|fc fcs] eqn:Hf.
    + left. exists cand, cands.
      rewrite (translate_plain _ _ _ _ Hc Hf).
      split; [reflexivity | split; [exact Hf | reflexivity]].
    + right. exists cand, cands, fc, fcs.
      rewrite (translate_function_call _ _ _ _ _ _ Hc Hf).
      split; [reflexivity | split; [exact Hf|]].
      destruct (arguments_of fc) as [a|e].
      * right. eexists; eexists. split; reflexivity.
      * left. exists e. split; reflexivity.
Qed.

(** C5.  For every reply of the backend -- no candidate, a candidate with
    a function call, a candidate with text only -- the envelope [create]
    returns has a [choices] list of exactly one choice, and that choice
    holds a message with the fields [content], [tool_calls], [role] and
    [sender].  [create] returns no envelope only when the arguments of the
    function call cannot be serialised. *)
Theorem create_one_choice model kw w h t resp :
  build_request kw = Ok (h, t) ->
  generate_content model h t = Ok resp ->
  match fst (create model kw w) with
  | Ok env =>
      exists choice message,
        __getattr__ env "choices" = Ok (PList [choice])
        /\ __getattr__ choice "message" = Ok (PDict message)
        /\ env = envelope message
        /\ dict_mem message "content" = true
        /\ dict_mem message "tool_calls" = true
        /\ dict_mem message "role" = true
        /\ dict_mem message "sender" = true
  | Raise e =>
      exists cand cands fc fcs,
        candidates resp = cand :: cands
        /\ function_calls cand = fc :: fcs
        /\ arguments_of fc = Raise e
  end.
Proof.
  intros Hb Hg.
  destruct (create_cases model kw w h t resp Hb Hg)
    as [[_ E] | [(cand & cands & _ & _ & E)
                | (cand & cands & fc & fcs & Hc & Hf
                   & [(e & Ha & E) | (a & tc & _ & E)])]];
    rewrite E.
  - eexists; eexists. repeat split; reflexivity.
  - eexists; eexists. repeat split; reflexivity.
  - exists cand, cands, fc, fcs. repeat split; assumption.
  - eexists; eexists. repeat split; reflexivity.
Qed.

Lemma create_one_choice_witness :
  exists choice message,
    __getattr__ (envelope message) "choices" = Ok (PList [choice])
    /\ __getattr__ choice "message" = Ok (PDict message)
    /\ fst (create (Samples.replying Samples.call_reply) Samples.conversation
              Samples.world0) = Ok (envelope message)
    /\ dict_mem message "content" = true
    /\ dict_mem message "tool_calls" = true
    /\ dict_mem message "role" = true
    /\ dict_mem message "sender" = true.
Proof.
  pose proof (create_one_choice (Samples.replying Samples.call_reply)
                Samples.conversation Samples.world0 _ _ Samples.call_reply
                eq_refl eq_refl) as H.
  destruct (fst (create (Samples.replying Samples.call_reply)
                   Samples.conversation Samples.world0)) as [env|e] eqn:E.
  - destruct H as (choice & message & H1 & H2 & -> & H3 & H4 & H5 & H6).
    exists choice, message. repeat split; assumption.
  - discriminate E.
Defined.

(** C9.  For every reply of the backend, the message of the envelope
    [create] returns has the role ["assistant"] and the sender
    ["assistant"], and it has the key [tool_calls]: in the blocked-response
    branch and in the plain-text branch the key is there with the value
    [None].  [create] returns no envelope only when the arguments of the
    function call cannot be serialised. *)
Theorem create_message_fields model kw w h t resp :
  build_request kw = Ok (h, t) ->
  generate_content model h t = Ok resp ->
  match fst (create model kw w) with
  | Ok env =>
      exists message,
        env = envelope message
        /\ dict_get message "role" = Some (PStr "assistant")
        /\ dict_get message "sender" = Some (PStr "assistant")
        /\ dict_mem message "tool_calls" = true
        /\ (match candidates resp with
            | [] => True
            | cand :: _ => function_calls cand = []
            end -> dict_get message "tool_calls" = Some PNone)
  | Raise e =>
      exists cand cands fc fcs,
        candidates resp = cand :: cands
        /\ function_calls cand = fc :: fcs
        /\ arguments_of fc = Raise e
  end.
Proof.
  intros Hb Hg.
  destruct (create_cases model kw w h t resp Hb Hg)
    as [[_ E] | [(cand & cands & _ & _ & E)
                | (cand & cands & fc & fcs & Hc & Hf
                   & [(e & Ha & E) | (a & tc & _ & E)])]];
    rewrite E.
  - eexists. repeat split; reflexivity.
  - eexists. repeat split; reflexivity.
  - exists cand, cands, fc, fcs. repeat split; assumption.
  - eexists. split; [reflexivity|]. repeat split; try reflexivity.
    rewrite Hc, Hf. discriminate.
Qed.

Lemma create_message_fields_witness :
  exists message,
    fst (create (Samples.replying Samples.text_reply) Samples.conversation
           Samples.world0) = Ok (envelope message)
    /\ dict_get message "role" = Some (PStr "assistant")
    /\ dict_get message "sender" = Some (PStr "assistant")
    /\ dict_mem message "tool_calls" = true
    /\ dict_get message "tool_calls" = Some PNone.
Proof.
  pose proof (create_message_fields (Samples.replying Samples.text_reply)
                Samples.conversation Samples.world0 _ _ Samples.text_reply
                eq_refl eq_refl) as H.
  destruct (fst (create (Samples.replying Samples.text_reply)
                   Samples.conversation Samples.world0)) as [env|e] eqn:E.
  - destruct H as (message & -> & H1 & H2 & H3 & H4).
    exists message. repeat split; try assumption. apply H4. reflexivity.
  - discriminate E.
Defined.

(** *** Plain text *)

(** C8.  For a reply with text only (a first candidate without function
    calls), translating the reply twice gives twice the envelope that
    translating it once gives: the translation draws no identifier and
    prints nothing, so that nothing distinguishes the second translation
    from the first. *)
Theorem translate_plain_text_twice resp cand cands w :
  candidates resp = cand :: cands ->
  function_calls cand = [] ->
  exists env,
    translate_response resp w = (Ok env, w)
    /\ (first <~ translate_response resp;;
        second <~ translate_response resp;;
        ret (first, second)) w = (Ok (env, env), w).
Proof.
  intros Hc Hf. eexists. unfold mbind, ret.
  rewrite !(translate_plain _ _ _ _ Hc Hf). split; reflexivity.
Qed.

Lemma translate_plain_text_twice_witness :
  exists env,
    translate_response Samples.text_reply Samples.world0
    = (Ok env, Samples.world0)
    /\ (first <~ translate_response Samples.text_reply;;
        second <~ translate_response Samples.text_reply;;
        ret (first, second)) Samples.world0
       = (Ok (env, env), Samples.world0).
Proof.
  apply (translate_plain_text_twice Samples.text_reply _ _ Samples.world0
           eq_refl eq_refl).
Defined.

(** The same for [create]: a second call that meets the same plain-text
    reply returns the envelope of the first. *)
Lemma create_plain_text_twice model kw w h t resp cand cands :
  build_request kw = Ok (h, t) ->
  generate_content model h t = Ok resp ->
  candidates resp = cand :: cands ->
  function_calls cand = [] ->
  fst (create model kw (snd (create model kw w))) = fst (create model kw w).
Proof.
  intros Hb Hg Hc Hf.
  rewrite !(create_reply _ _ _ _ _ _ Hb Hg).
  rewrite !(translate_plain _ _ _ _ Hc Hf). reflexivity.
Qed.

(** With a function call, two translations of one reply differ: each
    draws an identifier of its own. *)
Lemma translate_function_call_twice_differs :
  fst (translate_response Samples.call_reply Samples.world0)
  <> fst (translate_response Samples.call_reply
            (snd (translate_response Samples.call_reply Samples.world0))).
Proof.
  vm_compute. discriminate.
Qed.

(** *** Messages *)

Lemma role_mapping_get_str (r : string) :
  role_mapping_get (PStr r) = Ok (PStr (mapped_role r)).
Proof.
  unfold role_mapping_get, mapped_role, role_mapping. cbn [dict_get].
  rewrite (String.eqb_sym "assistant" r), (String.eqb_sym "tool" r).
  destruct (String.eqb r "assistant"), (String.eqb r "tool"); reflexivity.
Qed.

Lemma mapped_role_other (r : string) :
  r <> "assistant" -> r <> "tool" -> mapped_role r = r.
Proof.
  intros Ha Ht. unfold mapped_role.
  apply String.eqb_neq in Ha. apply String.eqb_neq in Ht.
  rewrite Ha, Ht. reflexivity.
Qed.

(** The role of the content is decided before the three branches. *)
Lemma convert_message_role (message : pydict) (content : Content) :
  _convert_message message = Ok content ->
  exists r, dict_get message "role" = Some r
            /\ role_mapping_get r = Ok (role content).
Proof.
  unfold _convert_message, bind. cbn [getitem].
  destruct (dict_get message "role") as [r|]; [|discriminate].
  destruct (role_mapping_get r) as [ro|] eqn:Hm; [|discriminate].
  intros H. exists r. split; [reflexivity|]. rewrite Hm.
  repeat break_match; try discriminate;
    apply JsonFacts.Ok_inj in H; subst content; reflexivity.
Qed.

Lemma convert_plain_message (message : pydict) (r : string) :
  dict_get message "role" = Some (PStr r) ->
  dict_mem message "function_call" = false ->
  dict_mem message "tool_name" = false ->
  _convert_message message
  = Ok {| role := PStr (mapped_role r);
          parts := [from_text match dict_get message "content" with
                              | Some c => c
                              | None => PStr ""
                              end] |}.
Proof.
  intros Hr Hf Ht. unfold _convert_message, bind. cbn [getitem get].
  rewrite Hr, role_mapping_get_str, Hf, Ht.
  destruct (dict_get message "content"); reflexivity.
Qed.

(** C4.  The role of the content made from a message of role [r] follows
    the table: ["assistant"] gives ["model"], ["tool"] gives ["model"], and
    every other role gives itself.  This holds in the three branches of
    [_convert_message], and a message without the keys [function_call] and
    [tool_name] is always converted. *)
Theorem convert_message_role_mapping (message : pydict) (r : string) :
  dict_get message "role" = Some (PStr r) ->
  (forall content,
      _convert_message message = Ok content ->
      role content = PStr (mapped_role r))
  /\ (dict_mem message "function_call" = false ->
      dict_mem message "tool_name" = false ->
      exists content,
        _convert_message message = Ok content
        /\ role content = PStr (mapped_role r))
  /\ mapped_role "assistant" = "model"
  /\ mapped_role "tool" = "model"
  /\ (r <> "assistant" -> r <> "tool" -> mapped_role r = r).
Proof.
  intros Hr. repeat split.
  - intros content Hc.
    destruct (convert_message_role _ _ Hc) as (r' & Hr' & Hm).
    rewrite Hr in Hr'. apply (f_equal (fun o => match o with
                                                 | Some x => x
                                                 | None => PNone
                                                 end)) in Hr'.
    simpl in Hr'. subst r'.
    rewrite role_mapping_get_str in Hm.
    apply JsonFacts.Ok_inj in Hm. symmetry. exact Hm.
  - intros Hf Ht. eexists. split.
    + exact (convert_plain_message _ _ Hr Hf Ht).
    + reflexivity.
  - apply mapped_role_other.
Qed.

Lemma convert_message_role_mapping_witness :
  _convert_message Samples.assistant_message
  = Ok {| role := PStr "model"; parts := [from_text (PStr "Let me look.")] |}
  /\ forall content,
      _convert_message Samples.assistant_message = Ok content ->
      role content = PStr "model".
Proof.
  split; [reflexivity|].
  exact (proj1 (convert_message_role_mapping Samples.assistant_message
                  "assistant" eq_refl)).
Defined.

(** C10.  A message with a role and without the keys [function_call] and
    [tool_name] is converted even when it has no [content]: the text of
    the part is then the empty string.  With the key [tool_name] (and
    still no [function_call]) the content is read by subscript, and the
    conversion raises [KeyError] when the key [content] is missing. *)
Theorem convert_message_content (message : pydict) (r : string) :
  dict_get message "role" = Some (PStr r) ->
  dict_mem message "function_call" = false ->
  (dict_mem message "tool_name" = false ->
   _convert_message message
   = Ok {| role := PStr (mapped_role r);
           parts := [from_text match dict_get message "content" with
                               | Some c => c
                               | None => PStr ""
                               end] |})
  /\ (dict_mem message "tool_name" = true ->
      dict_mem message "content" = false ->
      _convert_message message = Raise (KeyError "content")).
Proof.
  intros Hr Hf. split.
  - intros Ht. exact (convert_plain_message _ _ Hr Hf Ht).
  - intros Ht Hc. unfold _convert_message, bind. cbn [getitem].
    rewrite Hr, role_mapping_get_str, Hf, Ht.
    unfold dict_mem in Hc.
    destruct (dict_get message "content"); [discriminate | reflexivity].
Qed.

Lemma convert_message_content_witness :
  _convert_message Samples.bare_message
  = Ok {| role := PStr "user"; parts := [from_text (PStr "")] |}
  /\ _convert_message Samples.tool_message = Raise (KeyError "content").
Proof.
  split.
  - exact (proj1 (convert_message_content Samples.bare_message "user"
                    eq_refl eq_refl) eq_refl).
  - exact (proj2 (convert_message_content Samples.tool_message "tool"
                    eq_refl eq_refl) eq_refl eq_refl).
Defined.

(** With the key [function_call] the key [tool_name] is not looked at, and
    a missing [content] does no harm. *)
Lemma convert_function_call_message :
  _convert_message
    [("role", PStr "assistant"); ("tool_name", PStr "get_weather");
     ("function_call",
      PDict [("name", PStr "get_weather"); ("arguments", PStr "{}")])]
  = Ok {| role := PStr "model";
          parts := [from_text (PStr "get_weather({})")] |}.
Proof. reflexivity. Qed.

(** *** The request *)

Lemma filterM_not_system (msgs fm : list pydict) :
  filterM not_system msgs = Ok fm ->
  fm = filter (fun m => negb (is_system m)) msgs.
Proof.
  revert fm. induction msgs as [|m msgs IH]; intros fm H; simpl in H.
  - apply JsonFacts.Ok_inj in H. subst fm. reflexivity.
  - unfold not_system at 1 in H. cbn [getitem bind] in H.
    simpl. unfold is_system at 1.
    destruct (dict_get m "role") as [r|]; [|discriminate].
    destruct (filterM not_system msgs) as [xs|]; [|discriminate].
    apply JsonFacts.Ok_inj in H. subst fm.
    rewrite <- (IH xs eq_refl).
    destruct r; reflexivity.
Qed.

Lemma mapM_Forall2 {A B : Type} (f : A -> result B) (l : list A) (l' : list B) :
  mapM f l = Ok l' -> Forall2 (fun a b => f a = Ok b) l l'.
Proof.
  revert l'. induction l as [|a l IH]; intros l' H; simpl in H.
  - apply JsonFacts.Ok_inj in H. subst l'. constructor.
  - destruct (f a) as [b|] eqn:Ea; [|discriminate].
    destruct (mapM f l) as [bs|]; [|discriminate].
    apply JsonFacts.Ok_inj in H. subst l'.
    constructor; [exact Ea | apply IH; reflexivity].
Qed.

Lemma convert_not_system (message : pydict) (content : Content) :
  is_system message = false ->
  _convert_message message = Ok content ->
  role content <> PStr "system".
Proof.
  intros Hs Hc. destruct (convert_message_role _ _ Hc) as (r & Hr & Hm).
  unfold is_system in Hs. rewrite Hr in Hs.
  destruct r as [|b|z|s|l|d|cls d|cls d];
    try (simpl in Hm; try discriminate Hm;
         apply JsonFacts.Ok_inj in Hm; rewrite <- Hm; discriminate).
  rewrite role_mapping_get_str in Hm. apply JsonFacts.Ok_inj in Hm.
  rewrite <- Hm. unfold mapped_role. intros E.
  destruct (String.eqb s "assistant" || String.eqb s "tool").
  - discriminate E.
  - injection E as E. subst s. discriminate Hs.
Qed.

Lemma converted_not_system (ms : list pydict) (cs : list Content) :
  Forall2 (fun message content => _convert_message message = Ok content) ms cs ->
  Forall (fun m => is_system m = false) ms ->
  Forall (fun content => role content <> PStr "system") cs.
Proof.
  induction 1 as [|m c ms cs Hmc Hrest IH]; intros Hall; constructor.
  - exact (convert_not_system _ _ (Forall_inv Hall) Hmc).
  - exact (IH (Forall_inv_tail Hall)).
Qed.

Lemma list_not_longer {A : Type} (l : list A) (x : A) : l <> (l ++ [x])%list.
Proof.
  intros E. apply (f_equal (@List.length A)) in E.
  rewrite List.length_app in E. simpl in E. lia.
Qed.

(** [create] sends a request only when the request was built, and then
    it sends that request, once. *)
Lemma create_sent model kw w :
  match build_request kw with
  | Ok (h, t) => sent (snd (create model kw w)) = (sent w ++ [(h, t)])%list
  | Raise _ => sent (snd (create model kw w)) = sent w
  end.
Proof.
  destruct (build_request kw) as [[h t]|e] eqn:Hb.
  - destruct (generate_content model h t) as [resp|e] eqn:Hg.
    + rewrite (create_reply _ _ _ _ _ _ Hb Hg), translate_keeps_sent.
      reflexivity.
    + rewrite (create_backend_raises _ _ _ _ _ _ Hb Hg). reflexivity.
  - rewrite (create_request_raises _ _ _ _ Hb). reflexivity.
Qed.

(** C3.  The conversation [create] sends to the backend is made of the
    messages whose role is not ["system"], each converted, in their
    order: nothing in it comes from a system message, and no content has
    the role ["system"]. *)
Theorem create_drops_system_messages model kw w h t :
  sent (snd (create model kw w)) = (sent w ++ [(h, t)])%list ->
  Forall2 (fun message content => _convert_message message = Ok content)
    (filter (fun m => negb (is_system m)) (kwargs_get (messages kw))) h
  /\ Forall (fun content => role content <> PStr "system") h.
Proof.
  intros Hs. pose proof (create_sent model kw w) as Hc.
  destruct (build_request kw) as [[h' t']|e] eqn:Hb.
  - rewrite Hs in Hc. apply List.app_inv_head in Hc.
    injection Hc as <- <-.
    unfold build_request, bind in Hb.
    destruct (filterM not_system (kwargs_get (messages kw)))
      as [fm|] eqn:Hf; [|discriminate].
    destruct (mapM _convert_swarm_tool_to_gemini_tool (kwargs_get (tools kw)))
      as [gt|]; [|discriminate].
    destruct (mapM _convert_message fm) as [ch|] eqn:Hm; [|discriminate].
    apply JsonFacts.Ok_inj in Hb. injection Hb as <- <-.
    apply filterM_not_system in Hf. subst fm.
    apply mapM_Forall2 in Hm. split; [exact Hm|].
    assert (Hall : Forall (fun m => is_system m = false)
                     (filter (fun m => negb (is_system m))
                        (kwargs_get (messages kw)))).
    { apply Forall_forall. intros m Hin. apply filter_In in Hin.
      destruct Hin as [_ Hn]. apply negb_true_iff in Hn. exact Hn. }
    exact (converted_not_system _ _ Hm Hall).
  - rewrite Hs in Hc. exfalso. symmetry in Hc.
    exact (list_not_longer _ _ Hc).
Qed.

Lemma create_drops_system_messages_witness :
  Forall2 (fun message content => _convert_message message = Ok content)
    [Samples.user_message; Samples.assistant_message]
    [ {| role := PStr "user";
         parts := [from_text (PStr "What is the weather in Paris?")] |};
      {| role := PStr "model";
         parts := [from_text (PStr "Let me look.")] |} ]
  /\ Forall (fun content => role content <> PStr "system")
       [ {| role := PStr "user";
            parts := [from_text (PStr "What is the weather in Paris?")] |};
         {| role := PStr "model";
            parts := [from_text (PStr "Let me look.")] |} ].
Proof.
  exact (create_drops_system_messages (Samples.replying Samples.text_reply)
           Samples.conversation Samples.world0 _ _ eq_refl).
Defined.

End GeminiFacts.

(** ** The weather agent *)

Module WeatherFacts.
Import Weather.

Lemma get_weather_steps requests location time w :
  get_weather requests location time w =
  if truthy (api_key_of w) then
    match lookup requests location (api_key_of w) (given_time time) with
    | Ok text => (Ok text, w)
    | Raise e =>
        (Json.dumps (mock_response location (given_time time)),
         {| stdout := stdout w ++ ["API call failed: " ++ exn_str e
                                   ++ ". Using mock data."];
            environ := environ w |})
    end
  else (Json.dumps (mock_response location (given_time time)), w).
Proof.
  unfold get_weather, mbind, getenv, try_except, lift, ret, print.
  fold (api_key_of w). fold (given_time time).
  destruct (truthy (api_key_of w)); [|reflexivity].
  destruct (lookup requests location (api_key_of w) (given_time time));
    reflexivity.
Qed.

(** The mock response is always serialised, and it reads back. *)
Lemma mock_response_json (location : string) (time : pyval) :
  json_value time = true ->
  exists text,
    Json.dumps (mock_response (PStr location) time) = Ok text
    /\ Json.loads text = Ok (mock_response (PStr location) time).
Proof.
  intros Hj. unfold json_value in Hj. apply andb_prop in Hj.
  destruct Hj as [Hs Hw].
  assert (Hs' : serializable (mock_response (PStr location) time) = true).
  { simpl. rewrite Hs. reflexivity. }
  assert (Hw' : well_formed (mock_response (PStr location) time) = true).
  { simpl. rewrite Hw. reflexivity. }
  destruct (JsonFacts.dumps_serializable _ Hs') as [text Ht].
  exists text. split; [exact Ht | exact (JsonFacts.loads_dumps _ _ Hw' Ht)].
Qed.

(** C6.  Without the environment variable [OPENWEATHERMAP_API_KEY],
    [get_weather] returns, for every location string, a JSON text whose
    [temperature] field is the mock value ["65"] and whose [location]
    field is the location it was given; it prints nothing. *)
Theorem get_weather_without_credential requests (location : string) time w :
  dict_get (environ w) "OPENWEATHERMAP_API_KEY" = None ->
  json_value (given_time time) = true ->
  exists text reply,
    get_weather requests (PStr location) time w = (Ok text, w)
    /\ Json.loads text = Ok (PDict reply)
    /\ dict_get reply "temperature" = Some (PStr "65")
    /\ dict_get reply "location" = Some (PStr location).
Proof.
  intros He Hj.
  destruct (mock_response_json location _ Hj) as (text & Hd & Hl).
  exists text. eexists.
  rewrite get_weather_steps. unfold api_key_of. rewrite He. cbn [truthy].
  rewrite Hd. split; [reflexivity|]. split; [exact Hl|].
  split; reflexivity.
Qed.

Lemma get_weather_without_credential_witness :
  exists text reply,
    get_weather WeatherSamples.unreachable (PStr "Paris") None
      WeatherSamples.no_credential
    = (Ok text, WeatherSamples.no_credential)
    /\ Json.loads text = Ok (PDict reply)
    /\ dict_get reply "temperature" = Some (PStr "65")
    /\ dict_get reply "location" = Some (PStr "Paris").
Proof.
  exact (get_weather_without_credential WeatherSamples.unreachable "Paris"
           None WeatherSamples.no_credential eq_refl eq_refl).
Defined.

(** The failures the specification names -- a network error, a payload
    that cannot be decoded, a payload without the fields -- are failures of
    [lookup]. *)
Lemma lookup_network_error requests location api_key time e :
  http_get requests "http://api.openweathermap.org/data/2.5/weather"
    [("q", location); ("appid", api_key); ("units", PStr "metric")] = Raise e ->
  lookup requests location api_key time = Raise e.
Proof.
  intros H. unfold lookup. rewrite H. reflexivity.
Qed.

Lemma lookup_undecodable_payload requests location api_key time response e :
  http_get requests "http://api.openweathermap.org/data/2.5/weather"
    [("q", location); ("appid", api_key); ("units", PStr "metric")]
  = Ok response ->
  json response = Raise e ->
  lookup requests location api_key time = Raise e.
Proof.
  intros H1 H2. unfold lookup. rewrite H1. cbn [bind]. rewrite H2. reflexivity.
Qed.

Lemma lookup_malformed_payload requests location api_key time response data e :
  http_get requests "http://api.openweathermap.org/data/2.5/weather"
    [("q", location); ("appid", api_key); ("units", PStr "metric")]
  = Ok response ->
  json response = Ok data ->
  (data_name <- getitem data "name";;
   data_main <- getitem data "main";;
   getitem data_main "temp") = Raise e ->
  lookup requests location api_key time = Raise e.
Proof.
  intros H1 H2 H3. unfold lookup. rewrite H1. cbn [bind]. rewrite H2.
  cbn [bind]. unfold bind in H3 |- *.
  destruct (getitem data "name"); [|congruence].
  destruct (getitem data "main") as [m|]; [|congruence].
  destruct (getitem m "temp"); [discriminate H3 | congruence].
Qed.

(** C7.  For every location string, whatever makes the lookup fail --
    no credential (the variable unset or empty), or an exception [e]
    raised in the [try] block by the HTTP call, by the decoding of the
    payload or by the reading of its fields -- [get_weather] returns the
    mock response and raises nothing.  Without a credential nothing is
    printed; with the exception [e] one line that shows [e] is printed, and
    that is all that is left of the failure.  When the lookup succeeds its
    text is returned. *)
Theorem get_weather_falls_back requests (location : string) time w :
  json_value (given_time time) = true ->
  exists mock,
    Json.dumps (mock_response (PStr location) (given_time time)) = Ok mock
    /\ Json.loads mock = Ok (mock_response (PStr location) (given_time time))
    /\ (truthy (api_key_of w) = false ->
        get_weather requests (PStr location) time w = (Ok mock, w))
    /\ (forall e,
           truthy (api_key_of w) = true ->
           lookup requests (PStr location) (api_key_of w) (given_time time)
           = Raise e ->
           get_weather requests (PStr location) time w
           = (Ok mock,
              {| stdout := stdout w ++ ["API call failed: " ++ exn_str e
                                        ++ ". Using mock data."];
                 environ := environ w |}))
    /\ (forall text,
           truthy (api_key_of w) = true ->
           lookup requests (PStr location) (api_key_of w) (given_time time)
           = Ok text ->
           get_weather requests (PStr location) time w = (Ok text, w)).
Proof.
  intros Hj.
  destruct (mock_response_json location _ Hj) as (mock & Hd & Hl).
  exists mock. split; [exact Hd|]. split; [exact Hl|].
  rewrite get_weather_steps. repeat split.
  - intros Hk. rewrite Hk, Hd. reflexivity.
  - intros e Hk He. rewrite Hk, He, Hd. reflexivity.
  - intros text Hk Ht. rewrite Hk, Ht. reflexivity.
Qed.

Lemma get_weather_falls_back_witness :
  exists mock,
    Json.loads mock
    = Ok (PDict [("location", PStr "Paris");
                 ("temperature", PStr "65");
                 ("time", PStr "now")])
    /\ get_weather WeatherSamples.unreachable (PStr "Paris") None
         WeatherSamples.with_credential
       = (Ok mock,
          {| stdout := ["API call failed: Connection refused. Using mock data."];
             environ := [("OPENWEATHERMAP_API_KEY", "0123456789abcdef")] |})
    /\ get_weather (WeatherSamples.answering (Ok WeatherSamples.error_payload))
         (PStr "Paris") None WeatherSamples.with_credential
       = (Ok mock,
          {| stdout := ["API call failed: 'name'. Using mock data."];
             environ := [("OPENWEATHERMAP_API_KEY", "0123456789abcdef")] |}).
Proof.
  destruct (get_weather_falls_back WeatherSamples.unreachable "Paris" None
              WeatherSamples.with_credential eq_refl)
    as (mock & Hd & Hl & _ & Hfail & _).
  exists mock. split; [exact Hl|]. split.
  - exact (Hfail (RequestException "Connection refused") eq_refl eq_refl).
  - destruct (get_weather_falls_back
                (WeatherSamples.answering (Ok WeatherSamples.error_payload))
                "Paris" None WeatherSamples.with_credential eq_refl)
      as (mock' & Hd' & _ & _ & Hfail' & _).
    rewrite Hd in Hd'. apply JsonFacts.Ok_inj in Hd'. subst mock'.
    exact (Hfail' (KeyError "name") eq_refl eq_refl).
Defined.

(** With a credential and a well-formed payload the lookup is what
    [get_weather] returns. *)
Lemma get_weather_success :
  exists text,
    get_weather (WeatherSamples.answering (Ok WeatherSamples.paris_payload))
      (PStr "paris") None WeatherSamples.with_credential
    = (Ok text, WeatherSamples.with_credential)
    /\ Json.loads text
       = Ok (PDict [("location", PStr "Paris");
                    ("temperature", PInt 21);
                    ("time", PStr "now")]).
Proof.
  eexists. split; [reflexivity | vm_compute; reflexivity].
Qed.

End WeatherFacts.

(** ** [DotDict] *)

Module DotDictFacts.
Import Gemini.

Lemma dict_set_all {V : Type} (P : V -> bool) (d : list (string * V)) k v :
  forallb (fun kv => P (snd kv)) d = true -> P v = true ->
  forallb (fun kv => P (snd kv)) (dict_set d k v) = true.
Proof.
  intros Hd Hv. induction d as [|[k' v'] d IH]; simpl in *.
  - rewrite Hv. reflexivity.
  - apply andb_prop in Hd. destruct Hd as [H1 H2].
    destruct (String.eqb k' k); simpl.
    + rewrite Hv, H2. reflexivity.
    + rewrite H1, (IH H2). reflexivity.
Qed.

Lemma fold_dict_set_all {V : Type} (P : V -> bool) (ps acc : list (string * V)) :
  forallb (fun kv => P (snd kv)) acc = true ->
  forallb (fun kv => P (snd kv)) ps = true ->
  forallb (fun kv => P (snd kv))
    (fold_left (fun a kv => dict_set a (fst kv) (snd kv)) ps acc) = true.
Proof.
  revert acc. induction ps as [|[k v] ps IH]; intros acc Ha Hp; simpl in *.
  - exact Ha.
  - apply andb_prop in Hp. destruct Hp as [H1 H2].
    apply IH; [apply dict_set_all; assumption | exact H2].
Qed.

Lemma dict_of_pairs_all {V : Type} (P : V -> bool) (ps : list (string * V)) :
  forallb (fun kv => P (snd kv)) ps = true ->
  forallb (fun kv => P (snd kv)) (dict_of_pairs ps) = true.
Proof.
  intros H. unfold dict_of_pairs. apply fold_dict_set_all; [reflexivity | exact H].
Qed.

Lemma filter_all {A : Type} (p : A -> bool) (l : list A) :
  forallb p (filter p l) = true.
Proof.
  induction l as [|x l IH]; simpl; [reflexivity|].
  destruct (p x) eqn:E; simpl; [rewrite E, IH; reflexivity | exact IH].
Qed.

Lemma filter_kept {A : Type} (p q : A -> bool) (l : list A) :
  forallb q l = true -> forallb q (filter p l) = true.
Proof.
  induction l as [|x l IH]; simpl; [reflexivity|].
  intros H. apply andb_prop in H. destruct H as [H1 H2].
  destruct (p x); simpl; [rewrite H1, (IH H2); reflexivity | exact (IH H2)].
Qed.

Lemma dict_get_filter_none {V : Type} (p : string * V -> bool)
  (d : list (string * V)) (k : string) :
  dict_get d k = None -> dict_get (filter p d) k = None.
Proof.
  induction d as [|[k' v'] d IH]; simpl; [reflexivity|].
  destruct (String.eqb k' k) eqn:E; [discriminate|].
  intros H. destruct (p (k', v')); simpl; [rewrite E|]; exact (IH H).
Qed.

Lemma keys_unique_filter {V : Type} (p : string * V -> bool)
  (d : list (string * V)) :
  keys_unique d = true -> keys_unique (filter p d) = true.
Proof.
  induction d as [|[k v] d IH]; simpl; [reflexivity|].
  intros H. apply andb_prop in H. destruct H as [H1 H2].
  destruct (p (k, v)); simpl; [|exact (IH H2)].
  rewrite (IH H2), andb_true_r.
  unfold dict_mem in *. apply negb_true_iff in H1. apply negb_true_iff.
  destruct (dict_get d k) eqn:E; [discriminate|].
  rewrite (dict_get_filter_none p d k E). reflexivity.
Qed.

Lemma filter_is_serializable (self : pydict) :
  filter (fun kv => _is_serializable (snd kv)) self
  = filter (fun kv => serializable (snd kv)) self.
Proof.
  apply filter_ext. intros [k v]. apply JsonFacts.dumps_returns.
Qed.

(** X3.  [_is_serializable] answers [True] exactly for the values that
    hold no object, at any depth. *)
Theorem is_serializable_spec (value : pyval) :
  _is_serializable value = serializable value.
Proof.
  unfold _is_serializable. apply JsonFacts.dumps_returns.
Qed.

Lemma model_dump_json_kept (self : pydict) :
  serializable
    (PDict (dict_of_pairs (filter (fun kv => _is_serializable (snd kv)) self)))
  = true.
Proof.
  rewrite filter_is_serializable. simpl.
  apply (dict_of_pairs_all serializable). apply filter_all.
Qed.

(** X1.  [model_dump_json] never raises: the values [json.dumps] would
    refuse are left out before the dictionary is serialised. *)
Theorem model_dump_json_returns (self : pydict) :
  exists text, model_dump_json self = Ok text.
Proof.
  unfold model_dump_json.
  exact (JsonFacts.dumps_serializable _ (model_dump_json_kept self)).
Qed.

Lemma model_dump_json_reads_back (self : pydict) :
  keys_unique self = true ->
  forallb (fun kv => well_formed (snd kv)) self = true ->
  exists text,
    model_dump_json self = Ok text
    /\ Json.loads text
       = Ok (PDict (filter (fun kv => serializable (snd kv)) self)).
Proof.
  intros Hu Hw.
  destruct (JsonFacts.dumps_serializable _ (model_dump_json_kept self))
    as [text Ht].
  exists text. split; [exact Ht|].
  rewrite filter_is_serializable in Ht.
  rewrite (DictFacts.dict_of_pairs_unique _ (keys_unique_filter _ _ Hu)) in Ht.
  apply (JsonFacts.loads_dumps _ _) in Ht; [exact Ht|].
  simpl. rewrite (keys_unique_filter _ _ Hu). simpl.
  apply filter_kept. exact Hw.
Qed.

(** X2.  For a DotDict with distinct keys, [json.loads] reads the text
    of [model_dump_json] back as the entries of the DotDict whose values
    are serialisable, in their order; the other entries are dropped
    without a trace. *)
Theorem model_dump_json_round_trip (self : pydict) :
  keys_unique self = true ->
  forallb (fun kv => well_formed (snd kv)) self = true ->
  exists text,
    model_dump_json self = Ok text
    /\ Json.loads text
       = Ok (PDict (filter (fun kv => serializable (snd kv)) self)).
Proof.
  exact (model_dump_json_reads_back self).
Qed.

Lemma model_dump_json_round_trip_witness :
  exists text,
    model_dump_json MoreSamples.mixed_dotdict = Ok text
    /\ Json.loads text
       = Ok (PDict [("content", PStr "It is sunny.");
                    ("tool_calls", PNone);
                    ("usage", PDict [("tokens", PInt 12)])]).
Proof.
  exact (model_dump_json_round_trip MoreSamples.mixed_dotdict eq_refl eq_refl).
Defined.

End DotDictFacts.

(** ** The tools and the request *)

Module RequestFacts.
Import Gemini.

Lemma dict_get_map_values {V W : Type} (f : V -> W) (d : list (string * V)) k :
  dict_get (map (fun kv => (fst kv, f (snd kv))) d) k
  = option_map f (dict_get d k).
Proof.
  induction d as [|[k' v'] d IH]; simpl; [reflexivity|].
  destruct (String.eqb k' k); [reflexivity | exact IH].
Qed.

Lemma keys_unique_map_values {V W : Type} (f : V -> W) (d : list (string * V)) :
  keys_unique (map (fun kv => (fst kv, f (snd kv))) d) = keys_unique d.
Proof.
  induction d as [|[k v] d IH]; simpl; [reflexivity|].
  rewrite IH. unfold dict_mem. rewrite dict_get_map_values.
  destruct (dict_get d k); reflexivity.
Qed.

Lemma convert_properties (props : pydict) :
  forallb (fun kv => has_get (snd kv)) props = true ->
  mapM (fun kv : string * pyval =>
          let '(key, prop) := kv in
          ty <- get prop "type" PNone;;
          de <- get prop "description" (PStr "");;
          Ok (key, PDict [("type", ty); ("description", de)])) props
  = Ok (map (fun kv => (fst kv, property_schema (snd kv))) props).
Proof.
  induction props as [|[k prop] props IH]; [reflexivity|].
  intros H. cbn [forallb snd] in H. apply andb_prop in H.
  destruct H as [Hp Hr]. cbn [mapM map fst snd].
  rewrite (IH Hr).
  destruct prop as [| | | | |p|cls p|cls p]; try discriminate Hp;
    cbn [get bind property_schema];
    destruct (dict_get p "type"), (dict_get p "description"); reflexivity.
Qed.

(** X4.  A tool whose [function] has a name and a dictionary of
    parameters, the properties of which are dictionaries, becomes one
    [Tool] with one function declaration: the name as it is, the
    description or the empty string, and an object schema that has the
    properties under their names and in their order, each reduced to its
    [type] and [description], and the [required] list or the empty
    list. *)
Theorem convert_tool_schema (tool fd ps props : pydict) (n : pyval) :
  dict_get tool "function" = Some (PDict fd) ->
  dict_get fd "parameters" = Some (PDict ps) ->
  dict_get fd "name" = Some n ->
  get (PDict ps) "properties" (PDict []) = Ok (PDict props) ->
  forallb (fun kv => has_get (snd kv)) props = true ->
  keys_unique props = true ->
  _convert_swarm_tool_to_gemini_tool tool
  = Ok {| function_declarations :=
            [ {| name := n;
                 description := match dict_get fd "description" with
                                | Some d => d
                                | None => PStr ""
                                end;
                 parameters :=
                   PDict [("type", PStr "object");
                          ("properties",
                           PDict (map (fun kv => (fst kv, property_schema (snd kv)))
                                    props));
                          ("required", match dict_get ps "required" with
                                       | Some r => r
                                       | None => PList []
                                       end)] |} ] |}.
Proof.
  intros Hf Hp Hn Hprops Hget Hu.
  unfold _convert_swarm_tool_to_gemini_tool.
  cbn [getitem]. rewrite Hf. cbn [bind getitem]. rewrite Hp. cbn [bind].
  rewrite Hprops. cbn [bind get]. rewrite Hn.
  destruct (dict_get ps "required") as [r|];
    destruct (dict_get fd "description") as [d|];
    cbn [bind items]; rewrite (convert_properties _ Hget); cbn [bind];
    rewrite DictFacts.dict_of_pairs_unique
      by (rewrite keys_unique_map_values; exact Hu);
    reflexivity.
Qed.

Lemma convert_tool_schema_witness :
  _convert_swarm_tool_to_gemini_tool Samples.weather_tool
  = Ok {| function_declarations :=
            [ {| name := PStr "get_weather";
                 description := PStr "Get the current weather in a given location.";
                 parameters :=
                   PDict [("type", PStr "object");
                          ("properties",
                           PDict [("location",
                                   PDict [("type", PStr "string");
                                          ("description", PStr "")]);
                                  ("time",
                                   PDict [("type", PStr "string");
                                          ("description", PStr "")])]);
                          ("required", PList [PStr "location"])] |} ] |}.
Proof.
  exact (convert_tool_schema Samples.weather_tool _ _ _ _
           eq_refl eq_refl eq_refl eq_refl eq_refl eq_refl).
Defined.

(** X5.  What a tool lacks decides the exception, in the order the
    function reads: without [function], [KeyError('function')]; without
    [parameters], [KeyError('parameters')], whether there is a name or
    not; with a dictionary of parameters and without [name],
    [KeyError('name')]. *)
Theorem convert_tool_missing_key (tool : pydict) :
  (dict_get tool "function" = None ->
   _convert_swarm_tool_to_gemini_tool tool = Raise (KeyError "function"))
  /\ (forall fd,
         dict_get tool "function" = Some (PDict fd) ->
         dict_get fd "parameters" = None ->
         _convert_swarm_tool_to_gemini_tool tool = Raise (KeyError "parameters"))
  /\ (forall fd ps,
         dict_get tool "function" = Some (PDict fd) ->
         dict_get fd "parameters" = Some (PDict ps) ->
         dict_get fd "name" = None ->
         _convert_swarm_tool_to_gemini_tool tool = Raise (KeyError "name")).
Proof.
  unfold _convert_swarm_tool_to_gemini_tool. repeat split.
  - intros H. cbn [getitem]. rewrite H. reflexivity.
  - intros fd Hf Hp. cbn [getitem]. rewrite Hf. cbn [bind getitem].
    rewrite Hp. reflexivity.
  - intros fd ps Hf Hp Hn. cbn [getitem]. rewrite Hf. cbn [bind getitem].
    rewrite Hp. cbn [bind get]. rewrite Hn.
    destruct (dict_get ps "properties"), (dict_get ps "required"); reflexivity.
Qed.

Lemma convert_tool_missing_key_witness :
  _convert_swarm_tool_to_gemini_tool MoreSamples.tool_without_function
  = Raise (KeyError "function")
  /\ _convert_swarm_tool_to_gemini_tool MoreSamples.tool_without_parameters
     = Raise (KeyError "parameters")
  /\ _convert_swarm_tool_to_gemini_tool MoreSamples.tool_without_name
     = Raise (KeyError "name").
Proof.
  split; [|split].
  - exact (proj1 (convert_tool_missing_key MoreSamples.tool_without_function)
             eq_refl).
  - exact (proj1 (proj2 (convert_tool_missing_key
                           MoreSamples.tool_without_parameters))
             _ eq_refl eq_refl).
  - exact (proj2 (proj2 (convert_tool_missing_key MoreSamples.tool_without_name))
             _ _ eq_refl eq_refl eq_refl).
Defined.

End RequestFacts.

(** ** Messages and the conversation *)

Module MessageFacts.
Import Gemini.

(** X6.  With the key [function_call] the text of the part is the name
    of the function followed by its arguments between parentheses, and
    the role is mapped as everywhere; the keys [tool_name] and [content]
    are not looked at. *)
Theorem convert_function_call_text (message : pydict) (r n a : string)
  (fc : pyval) :
  dict_get message "role" = Some (PStr r) ->
  dict_get message "function_call" = Some fc ->
  getitem fc "name" = Ok (PStr n) ->
  getitem fc "arguments" = Ok (PStr a) ->
  _convert_message message
  = Ok {| role := PStr (mapped_role r);
          parts := [from_text (PStr (n ++ "(" ++ a ++ ")"))] |}.
Proof.
  intros Hr Hf Hn Ha. unfold _convert_message, bind. cbn [getitem].
  rewrite Hr, GeminiFacts.role_mapping_get_str.
  unfold dict_mem. rewrite Hf, Hn, Ha. reflexivity.
Qed.

Lemma convert_function_call_text_witness :
  _convert_message MoreSamples.call_message
  = Ok {| role := PStr "model";
          parts := [from_text (PStr "get_weather({})")] |}.
Proof.
  exact (convert_function_call_text MoreSamples.call_message
           "assistant" "get_weather" "{}" _ eq_refl eq_refl eq_refl eq_refl).
Defined.

(** X7.  The branch is chosen by the presence of the key
    [function_call], not by its value: when the value cannot be
    subscripted with ['name'] -- it is [None], or a dictionary without
    that key -- the conversion raises what the subscript raises, and when
    only ['arguments'] is missing it raises for that key. *)
Theorem convert_function_call_unreadable (message : pydict) (r : string)
  (fc : pyval) (e : exn) :
  dict_get message "role" = Some (PStr r) ->
  dict_get message "function_call" = Some fc ->
  (getitem fc "name" = Raise e -> _convert_message message = Raise e)
  /\ (forall n,
         getitem fc "name" = Ok n ->
         getitem fc "arguments" = Raise e ->
         _convert_message message = Raise e).
Proof.
  intros Hr Hf. unfold _convert_message, bind. cbn [getitem].
  rewrite Hr, GeminiFacts.role_mapping_get_str.
  unfold dict_mem. rewrite Hf. split.
  - intros Hn. rewrite Hn. reflexivity.
  - intros n Hn Ha. rewrite Hn, Ha. reflexivity.
Qed.

Lemma convert_function_call_unreadable_witness :
  _convert_message MoreSamples.stored_assistant_message
  = Raise (TypeError "'NoneType' object is not subscriptable").
Proof.
  exact (proj1 (convert_function_call_unreadable
                  MoreSamples.stored_assistant_message "assistant" PNone _
                  eq_refl eq_refl) eq_refl).
Defined.

Lemma convert_message_one_part (message : pydict) (content : Content) :
  _convert_message message = Ok content -> List.length (parts content) = 1.
Proof.
  unfold _convert_message, bind. intros H.
  repeat GeminiFacts.break_match; try discriminate;
    apply JsonFacts.Ok_inj in H; subst content; reflexivity.
Qed.

Lemma filterM_not_system_idem (msgs : list pydict) :
  filterM not_system (filter (fun m => negb (is_system m)) msgs)
  = filterM not_system msgs.
Proof.
  induction msgs as [|m msgs IH]; [reflexivity|].
  cbn [filter]. unfold is_system at 1.
  destruct (dict_get m "role") as [r|] eqn:Hr.
  - assert (Hn : not_system m
                 = Ok (match r with
                       | PStr s => negb (String.eqb s "system")
                       | _ => true
                       end)).
    { unfold not_system, bind. cbn [getitem]. rewrite Hr. reflexivity. }
    destruct r as [|b|z|s|l|d|cls d|cls d];
      try (cbn [negb filterM]; rewrite Hn, IH; reflexivity).
    destruct (String.eqb s "system") eqn:Es; cbn [negb filterM].
    + rewrite Hn. cbn [negb]. rewrite IH.
      destruct (filterM not_system msgs); reflexivity.
    + rewrite Hn, IH. reflexivity.
  - cbn [negb filterM].
    assert (Hn : not_system m = Raise (KeyError "role")).
    { unfold not_system, bind. cbn [getitem]. rewrite Hr. reflexivity. }
    rewrite Hn. reflexivity.
Qed.

(** X8.  The system messages have no part in the request: the request
    built from a conversation is the one built from the conversation
    without them, and so is the exception when there is one.  A system
    message that could not be converted does no harm. *)
Theorem build_request_ignores_system (msgs : list pydict)
  (swarm_tools : option (list pydict)) :
  build_request {| messages := Some msgs; tools := swarm_tools |}
  = build_request
      {| messages := Some (filter (fun m => negb (is_system m)) msgs);
         tools := swarm_tools |}.
Proof.
  unfold build_request. cbn [messages tools kwargs_get].
  rewrite filterM_not_system_idem. reflexivity.
Qed.

Lemma filterM_without_role (msgs : list pydict) :
  existsb (fun m => negb (dict_mem m "role")) msgs = true ->
  filterM not_system msgs = Raise (KeyError "role").
Proof.
  induction msgs as [|m msgs IH]; [discriminate|].
  cbn [existsb filterM]. intros H. unfold dict_mem in H.
  destruct (dict_get m "role") as [r|] eqn:Hr.
  - cbn [negb orb] in H. rewrite (IH H).
    unfold not_system, bind. cbn [getitem]. rewrite Hr. reflexivity.
  - assert (Hn : not_system m = Raise (KeyError "role")).
    { unfold not_system, bind. cbn [getitem]. rewrite Hr. reflexivity. }
    rewrite Hn. reflexivity.
Qed.

(** X9.  One message without the key [role], wherever it stands in the
    conversation, makes [create] raise [KeyError('role')] before anything
    else is done: no tool is converted, the backend is not called, the
    world is as it was. *)
Theorem create_message_without_role model kw w :
  existsb (fun m => negb (dict_mem m "role")) (kwargs_get (messages kw)) = true ->
  create model kw w = (Raise (KeyError "role"), w).
Proof.
  intros H. apply GeminiFacts.create_request_raises.
  unfold build_request, bind. rewrite (filterM_without_role _ H). reflexivity.
Qed.

Lemma create_message_without_role_witness :
  create MoreSamples.failing
    {| messages := Some [Samples.user_message; MoreSamples.roleless_message];
       tools := Some [MoreSamples.tool_without_function] |}
    Samples.world0
  = (Raise (KeyError "role"), Samples.world0).
Proof.
  exact (create_message_without_role MoreSamples.failing
           {| messages := Some [Samples.user_message; MoreSamples.roleless_message];
              tools := Some [MoreSamples.tool_without_function] |}
           Samples.world0 eq_refl).
Defined.

Lemma sent_request model kw w h t :
  sent (snd (create model kw w)) = (sent w ++ [(h, t)])%list ->
  build_request kw = Ok (h, t).
Proof.
  intros Hs. pose proof (GeminiFacts.create_sent model kw w) as Hc.
  destruct (build_request kw) as [[h' t']|e].
  - rewrite Hs in Hc. apply List.app_inv_head in Hc.
    injection Hc as <- <-. reflexivity.
  - rewrite Hs in Hc. exfalso. symmetry in Hc.
    exact (GeminiFacts.list_not_longer _ _ Hc).
Qed.

Lemma build_request_parts kw h t :
  build_request kw = Ok (h, t) ->
  mapM _convert_swarm_tool_to_gemini_tool (kwargs_get (tools kw)) = Ok t
  /\ mapM _convert_message
       (filter (fun m => negb (is_system m)) (kwargs_get (messages kw))) = Ok h.
Proof.
  unfold build_request, bind. intros Hb.
  destruct (filterM not_system (kwargs_get (messages kw))) as [fm|] eqn:Hf;
    [|discriminate].
  destruct (mapM _convert_swarm_tool_to_gemini_tool (kwargs_get (tools kw)))
    as [gt|]; [|discriminate].
  destruct (mapM _convert_message fm) as [ch|] eqn:Hm; [|discriminate].
  apply JsonFacts.Ok_inj in Hb. injection Hb as <- <-.
  apply GeminiFacts.filterM_not_system in Hf. subst fm.
  split; [reflexivity | exact Hm].
Qed.

Lemma Forall2_right {A B : Type} (R : A -> B -> Prop) (P : B -> Prop)
  (l : list A) (l' : list B) :
  (forall x y, R x y -> P y) -> Forall2 R l l' -> Forall P l'.
Proof.
  intros HR. induction 1 as [|x y xs ys Hxy _ IH]; constructor.
  - exact (HR _ _ Hxy).
  - exact IH.
Qed.

Lemma convert_tool_one_declaration tool gt :
  _convert_swarm_tool_to_gemini_tool tool = Ok gt ->
  List.length (function_declarations gt) = 1.
Proof.
  unfold _convert_swarm_tool_to_gemini_tool, bind. intros H.
  repeat GeminiFacts.break_match; try discriminate;
    apply JsonFacts.Ok_inj in H; subst gt; reflexivity.
Qed.

(** X10.  In the request [create] sends, the tools are the tools it was
    given, converted one by one and in their order, each to a [Tool] of
    exactly one function declaration, and every content of the
    conversation has exactly one part. *)
Theorem create_request_shape model kw w h t :
  sent (snd (create model kw w)) = (sent w ++ [(h, t)])%list ->
  Forall2 (fun tool gt => _convert_swarm_tool_to_gemini_tool tool = Ok gt)
    (kwargs_get (tools kw)) t
  /\ Forall (fun gt => List.length (function_declarations gt) = 1) t
  /\ Forall (fun content => List.length (parts content) = 1) h
  /\ List.length h
     = List.length (filter (fun m => negb (is_system m))
                      (kwargs_get (messages kw))).
Proof.
  intros Hs. apply sent_request in Hs.
  destruct (build_request_parts _ _ _ Hs) as [Ht Hh].
  apply GeminiFacts.mapM_Forall2 in Ht. apply GeminiFacts.mapM_Forall2 in Hh.
  repeat split.
  - exact Ht.
  - exact (Forall2_right _ _ _ _ convert_tool_one_declaration Ht).
  - exact (Forall2_right _ _ _ _ convert_message_one_part Hh).
  - symmetry. exact (Forall2_length Hh).
Qed.

Lemma create_request_shape_witness :
  Forall2 (fun tool gt => _convert_swarm_tool_to_gemini_tool tool = Ok gt)
    [Samples.weather_tool]
    (snd (List.last (sent (snd (create (Samples.replying Samples.text_reply)
                                  Samples.conversation Samples.world0)))
            ([], [])))
  /\ List.length
       (fst (List.last (sent (snd (create (Samples.replying Samples.text_reply)
                                     Samples.conversation Samples.world0)))
               ([], []))) = 2.
Proof.
  destruct (create_request_shape (Samples.replying Samples.text_reply)
              Samples.conversation Samples.world0 _ _ eq_refl)
    as (Ht & _ & _ & Hl).
  split; [exact Ht | exact Hl].
Defined.

(** X11.  A conversation of nothing but system messages, or no
    conversation at all, is not an error: the backend is called with an
    empty history. *)
Theorem build_request_empty_history kw gt :
  forallb is_system (kwargs_get (messages kw)) = true ->
  mapM _convert_swarm_tool_to_gemini_tool (kwargs_get (tools kw)) = Ok gt ->
  build_request kw = Ok ([], gt).
Proof.
  intros Hs Ht. unfold build_request, bind.
  assert (Hf : filterM not_system (kwargs_get (messages kw)) = Ok []).
  { induction (kwargs_get (messages kw)) as [|m msgs IH]; [reflexivity|].
    cbn [forallb] in Hs. apply andb_prop in Hs. destruct Hs as [Hm Hr].
    cbn [filterM]. rewrite (IH Hr).
    unfold is_system in Hm. unfold not_system, bind. cbn [getitem].
    destruct (dict_get m "role") as [[| | |s| | | |]|]; try discriminate Hm.
    rewrite Hm. reflexivity. }
  rewrite Hf, Ht. reflexivity.
Qed.

Lemma build_request_empty_history_witness :
  build_request {| messages := Some [Samples.system_message]; tools := None |}
  = Ok ([], [])
  /\ build_request {| messages := None; tools := None |} = Ok ([], []).
Proof.
  split.
  - exact (build_request_empty_history
             {| messages := Some [Samples.system_message]; tools := None |}
             [] eq_refl eq_refl).
  - exact (build_request_empty_history {| messages := None; tools := None |}
             [] eq_refl eq_refl).
Defined.

End MessageFacts.

(** ** The reply and the effects of [create] *)

Module ReplyFacts.
Import Gemini.

Lemma dict_get_unwrapped (kvs : pydict) (k : string) :
  dict_get (unwrapped kvs) k
  = option_map (fun v => getattr_default v "string_value" v) (dict_get kvs k).
Proof.
  induction kvs as [|[k' v'] kvs IH]; simpl; [reflexivity|].
  destruct (String.eqb k' k); [reflexivity | exact IH].
Qed.

(** X12.  When the arguments of a function call are a mapping object
    and not a dictionary, a value that carries the attribute
    [string_value] is replaced by that attribute and every other value is
    kept; the arguments string then decodes to the dictionary with the
    keys of the mapping, in their order, and these values. *)
Theorem arguments_unwrap_string_value (fc : FunctionCall) (cls : string)
  (kvs : pydict) :
  args fc = PMapping cls kvs ->
  json_value (PDict (unwrapped kvs)) = true ->
  exists arguments,
    arguments_of fc = Ok arguments
    /\ Json.loads arguments = Ok (PDict (unwrapped kvs))
    /\ map fst (unwrapped kvs) = map fst kvs
    /\ forall k,
        dict_get (unwrapped kvs) k
        = option_map (fun v => getattr_default v "string_value" v)
            (dict_get kvs k).
Proof.
  intros Ha Hj.
  destruct (GeminiFacts.json_value_dict _ Hj) as (Hs & Hu & Hw).
  assert (Hser : _serialize_function_call fc = Ok (PDict (unwrapped kvs))).
  { unfold _serialize_function_call. rewrite Ha. cbn [is_dict items bind].
    fold (unwrapped kvs).
    rewrite (DictFacts.dict_of_pairs_unique _ Hu). reflexivity. }
  assert (Hs' : serializable (PDict (unwrapped kvs)) = true) by exact Hs.
  destruct (JsonFacts.dumps_serializable _ Hs') as [text Ht].
  exists text. unfold arguments_of. rewrite Hser. cbn [bind].
  split; [exact Ht|]. split; [exact (JsonFacts.loads_dumps _ _ Hw Ht)|].
  split.
  - unfold unwrapped. rewrite List.map_map. apply List.map_ext.
    intros [k v]. reflexivity.
  - apply dict_get_unwrapped.
Qed.

Lemma arguments_unwrap_string_value_witness :
  exists arguments,
    arguments_of MoreSamples.wrapped_call = Ok arguments
    /\ Json.loads arguments
       = Ok (PDict [("location", PStr "Paris"); ("days", PInt 3)]).
Proof.
  destruct (arguments_unwrap_string_value MoreSamples.wrapped_call _ _
              eq_refl eq_refl) as (arguments & Ha & Hl & _).
  exists arguments. split; [exact Ha | exact Hl].
Defined.

(** X13.  When the arguments of the function call cannot be serialised
    -- they have no [items()], or a value is an object -- [create] raises
    the exception of the serialisation.  The request was sent and the
    identifier was drawn by then; nothing is printed. *)
Theorem create_arguments_fail model kw w h t resp cand cands fc fcs e :
  build_request kw = Ok (h, t) ->
  generate_content model h t = Ok resp ->
  candidates resp = cand :: cands ->
  function_calls cand = fc :: fcs ->
  arguments_of fc = Raise e ->
  create model kw w = (Raise e, drawn (called w h t))
  /\ stdout (snd (create model kw w)) = stdout w
  /\ uuid_drawn (snd (create model kw w)) = S (uuid_drawn w)
  /\ sent (snd (create model kw w)) = (sent w ++ [(h, t)])%list.
Proof.
  intros Hb Hg Hc Hf Ha.
  rewrite (GeminiFacts.create_reply _ _ _ _ _ _ Hb Hg).
  rewrite (GeminiFacts.translate_function_call _ _ _ _ _ _ Hc Hf), Ha.
  repeat split.
Qed.

Lemma create_arguments_fail_witness :
  fst (create (Samples.replying MoreSamples.no_args_reply) Samples.conversation
         Samples.world0)
  = Raise (AttributeError "'NoneType' object has no attribute 'items'")
  /\ uuid_drawn (snd (create (Samples.replying MoreSamples.no_args_reply)
                        Samples.conversation Samples.world0)) = 1.
Proof.
  destruct (create_arguments_fail (Samples.replying MoreSamples.no_args_reply)
              Samples.conversation Samples.world0 _ _ MoreSamples.no_args_reply
              _ _ MoreSamples.no_args_call _
              (AttributeError "'NoneType' object has no attribute 'items'")
              eq_refl eq_refl eq_refl eq_refl eq_refl)
    as (Hc & _ & Hd & _).
  split; [rewrite Hc; reflexivity | exact Hd].
Defined.

(** X14.  An exception of the backend is not caught: [create] raises
    it.  The request was sent, once; nothing is printed, no identifier is
    drawn, and there is no fallback envelope. *)
Theorem create_backend_error model kw w h t e :
  build_request kw = Ok (h, t) ->
  generate_content model h t = Raise e ->
  create model kw w = (Raise e, called w h t)
  /\ stdout (snd (create model kw w)) = stdout w
  /\ uuid_drawn (snd (create model kw w)) = uuid_drawn w
  /\ sent (snd (create model kw w)) = (sent w ++ [(h, t)])%list.
Proof.
  intros Hb Hg.
  rewrite (GeminiFacts.create_backend_raises _ _ _ _ _ _ Hb Hg).
  repeat split.
Qed.

Lemma create_backend_error_witness :
  fst (create MoreSamples.failing Samples.conversation Samples.world0)
  = Raise (BackendError "503 Service Unavailable")
  /\ stdout (snd (create MoreSamples.failing Samples.conversation
                    Samples.world0)) = [].
Proof.
  destruct (create_backend_error MoreSamples.failing Samples.conversation
              Samples.world0 _ _ _ eq_refl eq_refl) as (Hc & Hs & _).
  split; [rewrite Hc; reflexivity | exact Hs].
Defined.

Lemma translate_effects resp w :
  let w' := snd (translate_response resp w) in
  uuid_source w' = uuid_source w
  /\ sent w' = sent w
  /\ ((stdout w' = stdout w /\ uuid_drawn w' = uuid_drawn w
       /\ candidates resp <> [] /\ calls_function resp = false)
      \/ (stdout w' = (stdout w ++ [debug_line])%list
          /\ uuid_drawn w' = uuid_drawn w /\ candidates resp = [])
      \/ (stdout w' = stdout w /\ uuid_drawn w' = S (uuid_drawn w)
          /\ calls_function resp = true)).
Proof.
  unfold calls_function.
  destruct (candidates resp) as [|cand cands] eqn:Hc.
  - rewrite (GeminiFacts.translate_blocked _ _ Hc). cbn.
    split; [reflexivity|]. split; [reflexivity|].
    right; left. repeat split.
  - destruct (function_calls cand) as [|fc fcs] eqn:Hf.
    + rewrite (GeminiFacts.translate_plain _ _ _ _ Hc Hf). cbn.
      split; [reflexivity|]. split; [reflexivity|].
      left. repeat split. discriminate.
    + rewrite (GeminiFacts.translate_function_call _ _ _ _ _ _ Hc Hf).
      destruct (arguments_of fc); cbn;
        (split; [reflexivity|]); (split; [reflexivity|]);
        right; right; repeat split.
Qed.

(** X15.  Whatever it is given and whatever comes back, one call of
    [create] sends at most one request, prints at most one line -- the
    debugging line of the blocked response -- and draws at most one
    identifier, and it never both prints and draws.  The sequence the
    identifiers come from is left as it was. *)
Theorem create_effects model kw w :
  let w' := snd (create model kw w) in
  uuid_source w' = uuid_source w
  /\ (sent w' = sent w \/ exists request, sent w' = (sent w ++ [request])%list)
  /\ ((stdout w' = stdout w /\ uuid_drawn w' = uuid_drawn w)
      \/ (stdout w' = (stdout w ++ [debug_line])%list
          /\ uuid_drawn w' = uuid_drawn w)
      \/ (stdout w' = stdout w /\ uuid_drawn w' = S (uuid_drawn w))).
Proof.
  cbv zeta.
  destruct (build_request kw) as [[h t]|e] eqn:Hb.
  - destruct (generate_content model h t) as [resp|e] eqn:Hg.
    + rewrite (GeminiFacts.create_reply _ _ _ _ _ _ Hb Hg).
      destruct (translate_effects resp (called w h t))
        as (Hu & Hs & [(H1 & H2 & _) | [(H1 & H2 & _) | (H1 & H2 & _)]]);
        (split; [exact Hu|]);
        (split; [right; exists (h, t); exact Hs|]).
      * left. split; assumption.
      * right; left. split; assumption.
      * right; right. split; assumption.
    + rewrite (GeminiFacts.create_backend_raises _ _ _ _ _ _ Hb Hg).
      split; [reflexivity|]. split; [right; exists (h, t); reflexivity|].
      left. split; reflexivity.
  - rewrite (GeminiFacts.create_request_raises _ _ _ _ Hb).
    split; [reflexivity|]. split; [left; reflexivity|].
    left. split; reflexivity.
Qed.

(** X16.  Of the reply only the first candidate counts, and of its
    function calls only the first: the other candidates, the further
    function calls, and -- when there is a function call -- the text of
    the candidate have no part in what is returned.  Without a function
    call the text of the first candidate alone decides. *)
Theorem translate_first_only resp1 resp2 c1 cs1 c2 cs2 w :
  candidates resp1 = c1 :: cs1 ->
  candidates resp2 = c2 :: cs2 ->
  (forall fc fs1 fs2,
      function_calls c1 = fc :: fs1 ->
      function_calls c2 = fc :: fs2 ->
      translate_response resp1 w = translate_response resp2 w)
  /\ (function_calls c1 = [] ->
      function_calls c2 = [] ->
      content_text c1 = content_text c2 ->
      translate_response resp1 w = translate_response resp2 w).
Proof.
  intros H1 H2. split.
  - intros fc fs1 fs2 Hf1 Hf2.
    rewrite (GeminiFacts.translate_function_call _ _ _ _ _ _ H1 Hf1).
    rewrite (GeminiFacts.translate_function_call _ _ _ _ _ _ H2 Hf2).
    reflexivity.
  - intros Hf1 Hf2 Ht.
    rewrite (GeminiFacts.translate_plain _ _ _ _ H1 Hf1).
    rewrite (GeminiFacts.translate_plain _ _ _ _ H2 Hf2).
    rewrite Ht. reflexivity.
Qed.

Lemma translate_first_only_witness :
  translate_response MoreSamples.crowded_reply Samples.world0
  = translate_response Samples.call_reply Samples.world0.
Proof.
  exact (proj1 (translate_first_only MoreSamples.crowded_reply
                  Samples.call_reply _ _ _ _ Samples.world0 eq_refl eq_refl)
           _ _ _ eq_refl eq_refl).
Defined.

Lemma envelope_inj (m1 m2 : pydict) : envelope m1 = envelope m2 -> m1 = m2.
Proof.
  unfold envelope. intros H. injection H as H. exact H.
Qed.

(** X17.  The message of the envelope has the key [function_call]
    exactly when the first candidate of the reply carries a function
    call, and its content is then the empty string: reading
    [message.function_call] in the other two cases raises [KeyError]. *)
Theorem create_function_call_field model kw w h t resp message :
  build_request kw = Ok (h, t) ->
  generate_content model h t = Ok resp ->
  fst (create model kw w) = Ok (envelope message) ->
  dict_mem message "function_call" = calls_function resp
  /\ (calls_function resp = true ->
      dict_get message "content" = Some (PStr ""))
  /\ (calls_function resp = false ->
      __getattr__ (DotDict message) "function_call"
      = Raise (KeyError "function_call")).
Proof.
  intros Hb Hg He. unfold calls_function.
  destruct (GeminiFacts.create_cases model kw w h t resp Hb Hg)
    as [[Hc E] | [(cand & cands & Hc & Hf & E)
                 | (cand & cands & fc & fcs & Hc & Hf
                    & [(e & Ha & E) | (a & tc & _ & E)])]];
    rewrite E in He; try discriminate He;
    apply JsonFacts.Ok_inj in He; apply envelope_inj in He; subst message;
    rewrite Hc; try rewrite Hf; repeat split; try reflexivity;
    discriminate.
Qed.

Lemma create_function_call_field_witness :
  exists message,
    fst (create (Samples.replying Samples.text_reply) Samples.conversation
           Samples.world0) = Ok (envelope message)
    /\ __getattr__ (DotDict message) "function_call"
       = Raise (KeyError "function_call").
Proof.
  eexists. split; [reflexivity|].
  exact (proj2 (proj2 (create_function_call_field
                         (Samples.replying Samples.text_reply)
                         Samples.conversation Samples.world0 _ _
                         Samples.text_reply _ eq_refl eq_refl eq_refl))
           eq_refl).
Defined.

(** X18.  Every envelope [create] returns can be dumped with
    [model_dump_json], and [json.loads] reads the text back as the
    envelope: nothing in an envelope is dropped by the dump. *)
Theorem envelope_dump_round_trip model kw w h t resp env :
  build_request kw = Ok (h, t) ->
  generate_content model h t = Ok resp ->
  fst (create model kw w) = Ok (PDict env) ->
  exists text,
    model_dump_json env = Ok text /\ Json.loads text = Ok (PDict env).
Proof.
  intros Hb Hg He.
  assert (Hj : keys_unique env = true
               /\ forallb (fun kv => well_formed (snd kv)) env = true
               /\ filter (fun kv => serializable (snd kv)) env = env).
  { destruct (GeminiFacts.create_cases model kw w h t resp Hb Hg)
      as [[Hc E] | [(cand & cands & Hc & Hf & E)
                   | (cand & cands & fc & fcs & Hc & Hf
                      & [(e & Ha & E) | (a & tc & Ha & E)])]];
      rewrite E in He; try discriminate He;
      apply JsonFacts.Ok_inj in He; unfold envelope in He;
      injection He as He; subst env; try (repeat split; reflexivity).
    rewrite (GeminiFacts.create_reply _ _ _ _ _ _ Hb Hg) in E.
    rewrite (GeminiFacts.translate_function_call _ _ _ _ _ _ Hc Hf), Ha in E.
    cbn [fst] in E. apply JsonFacts.Ok_inj in E. unfold envelope in E.
    injection E as E. subst tc. repeat split; reflexivity. }
  destruct Hj as (Hu & Hw & Hf).
  destruct (DotDictFacts.model_dump_json_reads_back env Hu Hw)
    as (text & Ht & Hl).
  exists text. split; [exact Ht|]. rewrite Hf in Hl. exact Hl.
Qed.

Lemma envelope_dump_round_trip_witness :
  exists text,
    model_dump_json
      [("choices",
        PList [PDict [("message",
                       PDict [("content", PStr "It is sunny in Paris.");
                              ("tool_calls", PNone);
                              ("role", PStr "assistant");
                              ("sender", PStr "assistant")])]])]
    = Ok text
    /\ Json.loads text
       = Ok (PDict
               [("choices",
                 PList [PDict [("message",
                                PDict [("content", PStr "It is sunny in Paris.");
                                       ("tool_calls", PNone);
                                       ("role", PStr "assistant");
                                       ("sender", PStr "assistant")])]])]).
Proof.
  exact (envelope_dump_round_trip (Samples.replying Samples.text_reply)
           Samples.conversation Samples.world0 _ _ Samples.text_reply _
           eq_refl eq_refl eq_refl).
Defined.

End ReplyFacts.

(** ** The weather agent, further *)

Module WeatherMore.
Import Weather.

(** X19.  With a credential and a payload that has a [name] and a
    [temp] under [main], [get_weather] returns the JSON text of the name
    the service gave -- not the location it was asked for --, the
    temperature of the payload and the time, and prints nothing. *)
Theorem get_weather_reports_payload requests location time w
  response data data_name data_main data_temp :
  truthy (api_key_of w) = true ->
  http_get requests weather_url (weather_params location (api_key_of w))
  = Ok response ->
  json response = Ok data ->
  getitem data "name" = Ok data_name ->
  getitem data "main" = Ok data_main ->
  getitem data_main "temp" = Ok data_temp ->
  json_value data_name = true ->
  json_value data_temp = true ->
  json_value (given_time time) = true ->
  exists text,
    get_weather requests location time w = (Ok text, w)
    /\ Json.loads text
       = Ok (PDict [("location", data_name);
                    ("temperature", data_temp);
                    ("time", given_time time)]).
Proof.
  intros Hk Hg Hj Hn Hm Ht Jn Jt Jtime.
  unfold json_value in Jn, Jt, Jtime.
  apply andb_prop in Jn. apply andb_prop in Jt. apply andb_prop in Jtime.
  destruct Jn as [Sn Wn], Jt as [St Wt], Jtime as [Stime Wtime].
  set (reply := PDict [("location", data_name);
                       ("temperature", data_temp);
                       ("time", given_time time)]).
  assert (Hs : serializable reply = true).
  { simpl. rewrite Sn, St, Stime. reflexivity. }
  assert (Hw : well_formed reply = true).
  { simpl. rewrite Wn, Wt, Wtime. reflexivity. }
  destruct (JsonFacts.dumps_serializable _ Hs) as [text Hd].
  exists text. split; [|exact (JsonFacts.loads_dumps _ _ Hw Hd)].
  rewrite WeatherFacts.get_weather_steps, Hk.
  unfold lookup. unfold weather_url, weather_params in Hg.
  rewrite Hg. cbn [bind]. rewrite Hj. cbn [bind]. rewrite Hn. cbn [bind].
  rewrite Hm. cbn [bind]. rewrite Ht. cbn [bind].
  fold reply. rewrite Hd. reflexivity.
Qed.

Lemma get_weather_reports_payload_witness :
  exists text,
    get_weather (WeatherSamples.answering (Ok WeatherSamples.paris_payload))
      (PStr "paris, fr") None WeatherSamples.with_credential
    = (Ok text, WeatherSamples.with_credential)
    /\ Json.loads text
       = Ok (PDict [("location", PStr "Paris");
                    ("temperature", PInt 21);
                    ("time", PStr "now")]).
Proof.
  exact (get_weather_reports_payload
           (WeatherSamples.answering (Ok WeatherSamples.paris_payload))
           (PStr "paris, fr") None WeatherSamples.with_credential
           _ _ _ _ _
           eq_refl eq_refl eq_refl eq_refl eq_refl eq_refl
           eq_refl eq_refl eq_refl).
Defined.

(** X20.  All [get_weather] asks of the network is one GET of the
    weather URL with the location as [q], the credential as [appid] and
    metric units, and only when there is a credential: two services that
    answer this request alike cannot be told apart, and without a
    credential no service is asked at all. *)
Theorem get_weather_one_request requests1 requests2 location time w :
  (truthy (api_key_of w) = true ->
   http_get requests1 weather_url (weather_params location (api_key_of w))
   = http_get requests2 weather_url (weather_params location (api_key_of w))) ->
  get_weather requests1 location time w = get_weather requests2 location time w.
Proof.
  intros H. rewrite !WeatherFacts.get_weather_steps.
  destruct (truthy (api_key_of w)); [|reflexivity].
  unfold lookup. unfold weather_url, weather_params in H.
  rewrite (H eq_refl). reflexivity.
Qed.

Lemma get_weather_one_request_witness :
  get_weather MoreWeatherSamples.weather_only (PStr "Paris") None
    WeatherSamples.with_credential
  = get_weather (WeatherSamples.answering (Ok WeatherSamples.paris_payload))
      (PStr "Paris") None WeatherSamples.with_credential.
Proof.
  apply (get_weather_one_request MoreWeatherSamples.weather_only
           (WeatherSamples.answering (Ok WeatherSamples.paris_payload))
           (PStr "Paris") None WeatherSamples.with_credential).
  intros _. reflexivity.
Defined.

Lemma dumps_raises (v : pyval) :
  serializable v = false -> exists e, Json.dumps v = Raise e.
Proof.
  intros H. rewrite <- JsonFacts.dumps_returns in H.
  destruct (Json.dumps v) as [text|e]; [discriminate | exists e; reflexivity].
Qed.

(** X21.  The fallback has a limit: a [time] that [json.dumps] does not
    accept makes [get_weather] raise, with or without a credential and
    whatever the service answers -- the exception of the [try] block is
    caught and printed, the one of the mock response is not. *)
Theorem get_weather_time_not_serializable requests (location : string) time w :
  serializable (given_time time) = false ->
  exists e,
    Json.dumps (mock_response (PStr location) (given_time time)) = Raise e
    /\ fst (get_weather requests (PStr location) time w) = Raise e.
Proof.
  intros Hs.
  assert (Hm : serializable (mock_response (PStr location) (given_time time))
               = false).
  { simpl. rewrite Hs. reflexivity. }
  destruct (dumps_raises _ Hm) as [e He].
  exists e. split; [exact He|].
  rewrite WeatherFacts.get_weather_steps.
  destruct (truthy (api_key_of w)); [|rewrite He; reflexivity].
  destruct (lookup requests (PStr location) (api_key_of w) (given_time time))
    as [text|e'] eqn:El; [|rewrite He; reflexivity].
  exfalso. unfold lookup, bind in El.
  repeat match type of El with
         | match ?x with _ => _ end = _ => destruct x; [|discriminate El]
         end.
  match type of El with
  | Json.dumps ?v = _ =>
      assert (Hv : serializable v = false)
        by (simpl; rewrite Hs, !andb_false_r; reflexivity);
      destruct (dumps_raises _ Hv) as [e'' He'']; congruence
  end.
Qed.

Lemma get_weather_time_not_serializable_witness :
  fst (get_weather WeatherSamples.unreachable (PStr "Paris")
         (Some (PObject "datetime" [])) WeatherSamples.with_credential)
  = Raise (TypeError "Object of type datetime is not JSON serializable").
Proof.
  destruct (get_weather_time_not_serializable WeatherSamples.unreachable
              "Paris" (Some (PObject "datetime" []))
              WeatherSamples.with_credential eq_refl) as (e & He & Hg).
  rewrite Hg. rewrite <- He. reflexivity.
Defined.

End WeatherMore.
